(** * NFT metadata extractor: year filter, metadata flattening and CSV export

    A shallow embedding of [src/main.py] and [src/nft_extractor.py].  Both
    files define a class [NFTMetadataExtractor]; [flatten_metadata] and
    [export_to_csv] are the same text in the two files and are embedded
    once, [filter_nfts_by_year] differs and is embedded once per file
    (modules [Rpc] for main.py and [Rest] for nft_extractor.py).

    Python values are the values [json.loads] produces.  A [str] is a
    sequence of code points, a [dict] keeps its insertion order, and an
    operation that raises returns [Raise] with the exception's class. *)

From Stdlib Require Import ZArith NArith Ascii String Lia.
From stdpp Require Import gmap list sorting.

Set Default Proof Using "Type".

(** ** Python strings *)

(** A Python [str] is a sequence of Unicode code points. *)
Abbreviation pstr := (list N).

(** The code point of an ASCII character, and the [str] of an ASCII literal. *)
Definition chr (a : ascii) : N := N_of_ascii a.
Global Arguments chr : simpl never.

Fixpoint u (s : string) : pstr :=
  match s with
  | EmptyString => []
  | String a r => chr a :: u r
  end.

Global Arguments u : simpl never.

(** The quotation mark, U+0022. *)
Definition dquote : N := 34%N.
Global Arguments dquote : simpl never.

(** What the interpreter supplies and the repository does not define: the
    Unicode database beyond ASCII ([str.isalnum], [str.isspace] and
    [str.isprintable] on code points from U+0080 on) and the [float] type
    with its conversions to text. *)
Class PyRuntime := {
  uni_alnum : N → bool;
  uni_space : N → bool;
  uni_printable : N → bool;
  pyfloat : Type;
  float_truthy : pyfloat → bool;
  float_repr : pyfloat → pstr;
  float_json : pyfloat → pstr;
}.

(** A runtime whose tables classify nothing beyond ASCII and that has no
    float: enough to run the embedding on ASCII inputs. *)
Definition ascii_runtime : PyRuntime := {|
  uni_alnum := λ _, false;
  uni_space := λ _, false;
  uni_printable := λ _, false;
  pyfloat := Empty_set;
  float_truthy := λ _, false;
  float_repr := λ _, [];
  float_json := λ _, [];
|}.

Definition between (lo hi c : N) : bool := (lo <=? c)%N && (c <=? hi)%N.

(** [0-9A-Za-z]. *)
Definition ascii_alnum (c : N) : bool :=
  between 48 57 c || between 65 90 c || between 97 122 c.

(** ASCII white space as CPython has it: U+0009..U+000D, U+001C..U+001F
    and the space. *)
Definition ascii_space (c : N) : bool := between 9 13 c || between 28 32 c.

Section Strings.
Context {rt : PyRuntime}.

Definition is_alnum (c : N) : bool :=
  if (c <? 128)%N then ascii_alnum c else uni_alnum c.

(** [\s] of a [str] pattern and the characters [str.strip()] removes. *)
Definition is_space (c : N) : bool :=
  if (c <? 128)%N then ascii_space c else uni_space c.

(** [\w] of a [str] pattern: alphanumeric or the underscore. *)
Definition is_word (c : N) : bool := is_alnum c || (c =? chr "_")%N.

(** [re.sub(r'[^\w\s-]', '', s)]: the characters of the class
    [[^\w\s-]] are deleted, the others stay in order. *)
Definition keeps (c : N) : bool := is_word c || is_space c || (c =? chr "-")%N.

Definition re_sub_disallowed (s : pstr) : pstr := List.filter keeps s.

(** [s.lstrip()], [s.rstrip()] and [s.strip()]. *)
Fixpoint lstrip (s : pstr) : pstr :=
  match s with
  | [] => []
  | c :: r => if is_space c then lstrip r else s
  end.

Fixpoint rstrip (s : pstr) : pstr :=
  match s with
  | [] => []
  | c :: r =>
      match rstrip r with
      | [] => if is_space c then [] else [c]
      | r' => c :: r'
      end
  end.

Definition strip (s : pstr) : pstr := rstrip (lstrip s).

(** [s.replace(old, new)] for one-character [old] and [new]. *)
Definition replace_char (old new : N) (s : pstr) : pstr :=
  List.map (λ c, if (c =? old)%N then new else c) s.

(** The expression both files apply to trait names and to residual
    metadata keys:
    [re.sub(r'[^\w\s-]', '', x).strip().replace(' ', '_')]. *)
Definition sanitize (s : pstr) : pstr :=
  replace_char (chr " ") (chr "_") (strip (re_sub_disallowed s)).

(** *** The sanitization as the specification words it

    "Strip every character that is not alphanumeric, underscore, whitespace,
    or hyphen, trim surrounding whitespace, then replace internal whitespace
    runs with a single underscore." *)
Definition spec_allowed (c : N) : bool :=
  is_alnum c || (c =? chr "_")%N || is_space c || (c =? chr "-")%N.

(** One underscore per maximal run of white space; [in_run] tells that the
    previous character was white space. *)
Fixpoint collapse_runs (in_run : bool) (s : pstr) : pstr :=
  match s with
  | [] => []
  | c :: r =>
      if is_space c
      then (if in_run then collapse_runs true r else chr "_" :: collapse_runs true r)
      else c :: collapse_runs false r
  end.

Definition sanitize_spec (s : pstr) : pstr :=
  collapse_runs false (strip (List.filter spec_allowed s)).

(** Every white-space character of [s] is a space (U+0020) that no other
    white-space character follows. *)
Fixpoint single_spaced (s : pstr) : bool :=
  match s with
  | [] => true
  | c :: r =>
      (if is_space c
       then (c =? chr " ")%N && negb (from_option is_space false (head r))
       else true)
      && single_spaced r
  end.

(** A trimmed string neither starts nor ends with white space. *)
Definition trimmed (s : pstr) : Prop :=
  from_option is_space false (head s) = false ∧
  from_option is_space false (last s) = false.

End Strings.

(** Letters, digits and the underscore of ASCII go through unchanged. *)
Definition plain (c : N) : bool :=
  (c <? 128)%N && (ascii_alnum c || (c =? chr "_")%N).

(** ** Exceptions *)

Inductive exn := AttributeError | TypeError | KeyError.

(** The outcome of a call: a value, or a raised exception. *)
Inductive result (A : Type) :=
  | Ok (a : A)
  | Raise (e : exn).
Global Arguments Ok {A} a.
Global Arguments Raise {A} e.

Global Instance result_ret : MRet result := @Ok.
Global Instance result_bind : MBind result := λ A B f m,
  match m with
  | Ok a => f a
  | Raise e => Raise e
  end.

Definition returns {A} (m : result A) : Prop := ∃ a, m = Ok a.

(** ** Numbers as text *)

Definition bslash : N := 92%N.

Fixpoint digits (d : Decimal.uint) : pstr :=
  match d with
  | Decimal.Nil => []
  | Decimal.D0 r => chr "0" :: digits r
  | Decimal.D1 r => chr "1" :: digits r
  | Decimal.D2 r => chr "2" :: digits r
  | Decimal.D3 r => chr "3" :: digits r
  | Decimal.D4 r => chr "4" :: digits r
  | Decimal.D5 r => chr "5" :: digits r
  | Decimal.D6 r => chr "6" :: digits r
  | Decimal.D7 r => chr "7" :: digits r
  | Decimal.D8 r => chr "8" :: digits r
  | Decimal.D9 r => chr "9" :: digits r
  end.

(** [str(z)] of an [int]. *)
Definition str_int (z : Z) : pstr :=
  match Z.to_int z with
  | Decimal.Pos d => digits d
  | Decimal.Neg d => chr "-" :: digits d
  end.

Definition hex_digit (n : N) : N := if (n <? 10)%N then (48 + n)%N else (87 + n)%N.

(** [n] in lower-case hexadecimal, [w] digits wide, as ['%0wx'] prints a
    number below [16^w]. *)
Fixpoint hex_fixed (w : nat) (n : N) : pstr :=
  match w with
  | O => []
  | S w' => hex_fixed w' (n / 16)%N ++ [hex_digit (n mod 16)%N]
  end.

(** [sep.join(parts)]. *)
Fixpoint join (sep : pstr) (parts : list pstr) : pstr :=
  match parts with
  | [] => []
  | [p] => p
  | p :: r => p ++ sep ++ join sep r
  end.

(** [p in s] for two strings. *)
Fixpoint starts_with (p s : pstr) : bool :=
  match p, s with
  | [], _ => true
  | a :: p', b :: s' => (a =? b)%N && starts_with p' s'
  | _ :: _, [] => false
  end.

Fixpoint is_substring (p s : pstr) : bool :=
  starts_with p s ||
  match s with
  | [] => false
  | _ :: s' => is_substring p s'
  end.

Section Values.
Context {rt : PyRuntime}.

(** ** Values

    What [json.loads] returns: [None], a [bool], an [int], a [float], a
    [str], a [list], or a [dict] with [str] keys.  A [dict] is the list of
    its items in insertion order; [json.loads] builds it with distinct
    keys. *)
#[warnings="-register-all"]
Inductive json :=
  | JNone
  | JBool (b : bool)
  | JInt (z : Z)
  | JFloat (f : pyfloat)
  | JStr (s : pstr)
  | JList (l : list json)
  | JDict (d : list (pstr * json)).

(** [d[k]] when present. *)
Fixpoint dict_get (k : pstr) (d : list (pstr * json)) : option json :=
  match d with
  | [] => None
  | (k', v) :: r => if decide (k' = k) then Some v else dict_get k r
  end.

(** [v.get(k, dflt)]: only a [dict] has the method. *)
Definition py_get (v : json) (k : pstr) (dflt : json) : result json :=
  match v with
  | JDict d => Ok (default dflt (dict_get k d))
  | _ => Raise AttributeError
  end.

(** [k in v] for a [str] [k]: a key of a [dict], an item of a [list], a
    substring of a [str]; the other values are not containers. *)
Definition py_contains (k : pstr) (v : json) : result bool :=
  match v with
  | JDict d => Ok (bool_decide (is_Some (dict_get k d)))
  | JList l =>
      Ok (existsb (λ x, match x with JStr s => bool_decide (s = k) | _ => false end) l)
  | JStr s => Ok (is_substring k s)
  | _ => Raise TypeError
  end.

(** [v[k]] for a [str] [k]. *)
Definition py_getitem (v : json) (k : pstr) : result json :=
  match v with
  | JDict d =>
      match dict_get k d with
      | Some x => Ok x
      | None => Raise KeyError
      end
  | _ => Raise TypeError
  end.

(** The items [for x in v] visits. *)
Definition py_iter (v : json) : result (list json) :=
  match v with
  | JList l => Ok l
  | JDict d => Ok (List.map (λ kv, JStr kv.1) d)
  | JStr s => Ok (List.map (λ c, JStr [c]) s)
  | _ => Raise TypeError
  end.

(** [bool(v)]. *)
Definition truthy (v : json) : bool :=
  match v with
  | JNone => false
  | JBool b => b
  | JInt z => negb (z =? 0)%Z
  | JFloat f => float_truthy f
  | JStr s => negb (bool_decide (s = []))
  | JList l => match l with [] => false | _ => true end
  | JDict d => match d with [] => false | _ => true end
  end.

(** [v == s] for a [str] [s]. *)
Definition eq_str (v : json) (s : pstr) : bool :=
  match v with
  | JStr s' => bool_decide (s' = s)
  | _ => false
  end.

(** [repr(s)] of a [str]. *)
Definition repr_char (q c : N) : pstr :=
  if (c =? q)%N || (c =? bslash)%N then [bslash; c]
  else if (c =? 9)%N then [bslash; chr "t"]
  else if (c =? 10)%N then [bslash; chr "n"]
  else if (c =? 13)%N then [bslash; chr "r"]
  else if (c <? 32)%N || (c =? 127)%N then bslash :: chr "x" :: hex_fixed 2 c
  else if (c <? 127)%N then [c]
  else if uni_printable c then [c]
  else if (c <=? 255)%N then bslash :: chr "x" :: hex_fixed 2 c
  else if (c <=? 65535)%N then bslash :: chr "u" :: hex_fixed 4 c
  else bslash :: chr "U" :: hex_fixed 8 c.

Definition repr_str (s : pstr) : pstr :=
  let q := if existsb (N.eqb (chr "'")) s && negb (existsb (N.eqb dquote) s)
           then dquote else chr "'" in
  q :: flat_map (repr_char q) s ++ [q].

(** [repr(v)] and [str(v)]. *)
Fixpoint py_repr (v : json) : pstr :=
  match v with
  | JNone => u "None"
  | JBool true => u "True"
  | JBool false => u "False"
  | JInt z => str_int z
  | JFloat f => float_repr f
  | JStr s => repr_str s
  | JList l => chr "[" :: join (u ", ") (List.map py_repr l) ++ [chr "]"]
  | JDict d =>
      chr "{" ::
      join (u ", ") (List.map (λ kv, repr_str kv.1 ++ u ": " ++ py_repr kv.2) d)
      ++ [chr "}"]
  end.

Definition py_str (v : json) : pstr :=
  match v with
  | JStr s => s
  | _ => py_repr v
  end.

(** [json.dumps(v)] with its defaults: [ensure_ascii=True] and the
    separators [', '] and [': ']. *)
Definition json_escape_char (c : N) : pstr :=
  if (c =? dquote)%N then [bslash; dquote]
  else if (c =? bslash)%N then [bslash; bslash]
  else if (c =? 8)%N then [bslash; chr "b"]
  else if (c =? 12)%N then [bslash; chr "f"]
  else if (c =? 10)%N then [bslash; chr "n"]
  else if (c =? 13)%N then [bslash; chr "r"]
  else if (c =? 9)%N then [bslash; chr "t"]
  else if between 32 126 c then [c]
  else if (c <? 65536)%N then bslash :: chr "u" :: hex_fixed 4 c
  else
    let n := (c - 65536)%N in
    let s1 := N.lor 55296 (N.land (N.shiftr n 10) 1023) in
    let s2 := N.lor 56320 (N.land n 1023) in
    (bslash :: chr "u" :: hex_fixed 4 s1) ++ (bslash :: chr "u" :: hex_fixed 4 s2).

Definition json_string (s : pstr) : pstr :=
  dquote :: flat_map json_escape_char s ++ [dquote].

Fixpoint json_dumps (v : json) : pstr :=
  match v with
  | JNone => u "null"
  | JBool true => u "true"
  | JBool false => u "false"
  | JInt z => str_int z
  | JFloat f => float_json f
  | JStr s => json_string s
  | JList l => chr "[" :: join (u ", ") (List.map json_dumps l) ++ [chr "]"]
  | JDict d =>
      chr "{" ::
      join (u ", ") (List.map (λ kv, json_string kv.1 ++ u ": " ++ json_dumps kv.2) d)
      ++ [chr "}"]
  end.

End Values.

(** A flattened row: the [dict] that [flatten_metadata] fills. *)
Abbreviation row := (gmap pstr json).

(** ** The year filter *)

(** [year_pattern.match(s)] for
    [year_pattern = re.compile(r'^(199[0-9]|20[01][0-9]|202[0-5])')]:
    whether a match object comes back. *)
Definition year_pattern_match (s : pstr) : bool :=
  match s with
  | c1 :: c2 :: c3 :: c4 :: _ =>
      ((c1 =? chr "1")%N && (c2 =? chr "9")%N && (c3 =? chr "9")%N
       && between (chr "0") (chr "9") c4)
      || ((c1 =? chr "2")%N && (c2 =? chr "0")%N
          && between (chr "0") (chr "1") c3 && between (chr "0") (chr "9") c4)
      || ((c1 =? chr "2")%N && (c2 =? chr "0")%N && (c3 =? chr "2")%N
          && between (chr "0") (chr "5") c4)
  | _ => false
  end.

(** The specification's reading of the pattern: the first four characters
    are decimal digits and the number they write lies in 1990..2025. *)
Definition digit_value (c : N) : option N :=
  if between (chr "0") (chr "9") c then Some (c - chr "0")%N else None.

Definition year_prefix (s : pstr) : option N :=
  match s with
  | c1 :: c2 :: c3 :: c4 :: _ =>
      d1 ← digit_value c1; d2 ← digit_value c2;
      d3 ← digit_value c3; d4 ← digit_value c4;
      Some (1000 * d1 + 100 * d2 + 10 * d3 + d4)%N
  | _ => None
  end.

Definition year_in_range (s : pstr) : Prop :=
  ∃ y, year_prefix s = Some y ∧ (1990 ≤ y ≤ 2025)%N.

(** [filter_nfts_by_year] of main.py (the RPC variant). *)
Module Rpc.
Section Filter.
Context {rt : PyRuntime}.

(** Line 61:
    [nft.get('content', {}).get('metadata', {}).get('name')
       or nft.get('content', {}).get('name') or nft.get('name', '')]. *)
Definition display_name (nft : json) : result json :=
  content ← py_get nft (u "content") (JDict []);
  metadata ← py_get content (u "metadata") (JDict []);
  a ← py_get metadata (u "name") JNone;
  if truthy a then Ok a else
  content ← py_get nft (u "content") (JDict []);
  b ← py_get content (u "name") JNone;
  if truthy b then Ok b else
  py_get nft (u "name") (JStr []).

(** Line 62: [name and year_pattern.match(str(name))]. *)
Definition matches_year (name : json) : bool :=
  truthy name && year_pattern_match (py_str name).

Fixpoint filter_nfts_by_year (nfts : list json) : result (list json) :=
  match nfts with
  | [] => Ok []
  | nft :: rest =>
      name ← display_name nft;
      filtered ← filter_nfts_by_year rest;
      Ok (if matches_year name then nft :: filtered else filtered)
  end.

End Filter.
End Rpc.

(** [filter_nfts_by_year] of nft_extractor.py (the REST variant). *)
Module Rest.
Section Filter.
Context {rt : PyRuntime}.

(** Lines 33-40. *)
Definition display_name (nft : json) : result json :=
  let name := JStr [] in
  has_content ← py_contains (u "content") nft;
  has_metadata ←
    (if has_content : bool
     then content ← py_getitem nft (u "content"); py_contains (u "metadata") content
     else Ok false);
  name ←
    (if has_metadata : bool
     then
       content ← py_getitem nft (u "content");
       metadata ← py_getitem content (u "metadata");
       a ← py_get metadata (u "name") JNone;
       if truthy a then Ok a else py_get metadata (u "title") (JStr [])
     else Ok name);
  name ←
    (if truthy name then Ok name else
     has_content ← py_contains (u "content") nft;
     if has_content : bool
     then content ← py_getitem nft (u "content"); py_get content (u "name") (JStr [])
     else Ok name);
  if truthy name then Ok name else py_get nft (u "name") (JStr []).

(** Line 41: [name and year_pattern.match(str(name))]. *)
Definition matches_year (name : json) : bool :=
  truthy name && year_pattern_match (py_str name).

Fixpoint filter_nfts_by_year (nfts : list json) : result (list json) :=
  match nfts with
  | [] => Ok []
  | nft :: rest =>
      name ← display_name nft;
      filtered ← filter_nfts_by_year rest;
      Ok (if matches_year name then nft :: filtered else filtered)
  end.

End Filter.
End Rest.

(** ** Flattening *)

Section Flatten.
Context {rt : PyRuntime}.

(** The body of the loop over [enumerate(attributes)] (main.py lines
    83-87): an entry that is no [dict] is skipped. *)
Definition attribute_step (flattened : row) (i : nat) (attr : json) : row :=
  match attr with
  | JDict a =>
      let trait_type :=
        default (JStr (u "attribute_" ++ str_int (Z.of_nat i))) (dict_get (u "trait_type") a) in
      let value := default (JStr []) (dict_get (u "value") a) in
      let clean_trait := sanitize (py_str trait_type) in
      <[u "trait_" ++ clean_trait := value]> flattened
  | _ => flattened
  end.

Fixpoint attributes_loop (i : nat) (attributes : list json) (flattened : row) : row :=
  match attributes with
  | [] => flattened
  | attr :: rest => attributes_loop (S i) rest (attribute_step flattened i attr)
  end.

(** The loop over [grouping] (lines 89-92), which stops at the first
    entry whose [group_key] is ['collection']. *)
Fixpoint grouping_loop (groups : list json) (flattened : row) : result row :=
  match groups with
  | [] => Ok flattened
  | group :: rest =>
      key ← py_get group (u "group_key") JNone;
      if eq_str key (u "collection")
      then
        value ← py_get group (u "group_value") (JStr []);
        Ok (<[u "collection_address" := value]> flattened)
      else grouping_loop rest flattened
  end.

(** The keys of the metadata that lines 74-80 have read. *)
Definition consumed : list pstr :=
  [u "name"; u "symbol"; u "description"; u "image"; u "animation_url";
   u "external_url"; u "attributes"].

(** [json.dumps(value) if isinstance(value, (dict, list)) else str(value)]. *)
Definition residual_text (value : json) : pstr :=
  match value with
  | JDict _ | JList _ => json_dumps value
  | _ => py_str value
  end.

(** The loop over [metadata.items()] (lines 100-103). *)
Fixpoint residual_loop (items : list (pstr * json)) (flattened : row) : row :=
  match items with
  | [] => flattened
  | (key, value) :: rest =>
      residual_loop rest
        (if bool_decide (key ∈ consumed) then flattened
         else
           let clean_key := sanitize (py_str (JStr key)) in
           <[u "metadata_" ++ clean_key := JStr (residual_text value)]> flattened)
  end.

Definition flatten_metadata (nft : json) : result row :=
  let flattened : row := ∅ in
  mint ← py_get nft (u "id") (JStr []);
  let flattened := <[u "mint_address" := mint]> flattened in
  ownership ← py_get nft (u "ownership") (JDict []);
  owner ← py_get ownership (u "owner") (JStr []);
  let flattened := <[u "owner" := owner]> flattened in
  ownership ← py_get nft (u "ownership") (JDict []);
  frozen ← py_get ownership (u "frozen") (JBool false);
  let flattened := <[u "frozen" := frozen]> flattened in
  ownership ← py_get nft (u "ownership") (JDict []);
  delegated ← py_get ownership (u "delegated") (JBool false);
  let flattened := <[u "delegated" := delegated]> flattened in
  content ← py_get nft (u "content") (JDict []);
  metadata ← py_get content (u "metadata") (JDict []);
  name ← py_get metadata (u "name") (JStr []);
  let flattened := <[u "name" := name]> flattened in
  symbol ← py_get metadata (u "symbol") (JStr []);
  let flattened := <[u "symbol" := symbol]> flattened in
  description ← py_get metadata (u "description") (JStr []);
  let flattened := <[u "description" := description]> flattened in
  image ← py_get metadata (u "image") (JStr []);
  let flattened := <[u "image" := image]> flattened in
  animation_url ← py_get metadata (u "animation_url") (JStr []);
  let flattened := <[u "animation_url" := animation_url]> flattened in
  external_url ← py_get metadata (u "external_url") (JStr []);
  let flattened := <[u "external_url" := external_url]> flattened in
  attributes ← py_get metadata (u "attributes") (JList []);
  let flattened :=
    match attributes with
    | JList l => attributes_loop 0 l flattened
    | _ => flattened
    end in
  grouping ← py_get nft (u "grouping") (JList []);
  groups ← py_iter grouping;
  flattened ← grouping_loop groups flattened;
  royalty ← py_get nft (u "royalty") (JDict []);
  percent ← py_get royalty (u "percent") (JInt 0);
  let flattened := <[u "royalty_percent" := percent]> flattened in
  locked ← py_get royalty (u "locked") (JBool false);
  let flattened := <[u "royalty_locked" := locked]> flattened in
  supply ← py_get nft (u "supply") (JDict []);
  print_max_supply ← py_get supply (u "print_max_supply") (JInt 0);
  let flattened := <[u "supply_print_max_supply" := print_max_supply]> flattened in
  print_current_supply ← py_get supply (u "print_current_supply") (JInt 0);
  let flattened := <[u "supply_print_current_supply" := print_current_supply]> flattened in
  edition_nonce ← py_get supply (u "edition_nonce") (JStr []);
  let flattened := <[u "supply_edition_nonce" := edition_nonce]> flattened in
  items ← match metadata with
          | JDict d => Ok d
          | _ => Raise AttributeError
          end;
  Ok (residual_loop items flattened).

End Flatten.

(** *** The stages of [flatten_metadata]

    The row after the fixed fields (lines 68-79), the attribute loop
    (lines 80-87), and the royalty and supply fields (lines 93-99), as
    functions of the dicts the body has read. *)
Section Stages.
Context {rt : PyRuntime}.

Definition fixed_fields (nft ownership metadata : list (pstr * json)) : row :=
  <[u "external_url" := default (JStr []) (dict_get (u "external_url") metadata)]>
  (<[u "animation_url" := default (JStr []) (dict_get (u "animation_url") metadata)]>
  (<[u "image" := default (JStr []) (dict_get (u "image") metadata)]>
  (<[u "description" := default (JStr []) (dict_get (u "description") metadata)]>
  (<[u "symbol" := default (JStr []) (dict_get (u "symbol") metadata)]>
  (<[u "name" := default (JStr []) (dict_get (u "name") metadata)]>
  (<[u "delegated" := default (JBool false) (dict_get (u "delegated") ownership)]>
  (<[u "frozen" := default (JBool false) (dict_get (u "frozen") ownership)]>
  (<[u "owner" := default (JStr []) (dict_get (u "owner") ownership)]>
  (<[u "mint_address" := default (JStr []) (dict_get (u "id") nft)]> ∅))))))))).

Definition expand_attributes (metadata : list (pstr * json)) (flattened : row) : row :=
  match default (JList []) (dict_get (u "attributes") metadata) with
  | JList l => attributes_loop 0 l flattened
  | _ => flattened
  end.

Definition tail_fields (royalty supply : list (pstr * json)) (flattened : row) : row :=
  <[u "supply_edition_nonce" := default (JStr []) (dict_get (u "edition_nonce") supply)]>
  (<[u "supply_print_current_supply" :=
       default (JInt 0) (dict_get (u "print_current_supply") supply)]>
  (<[u "supply_print_max_supply" := default (JInt 0) (dict_get (u "print_max_supply") supply)]>
  (<[u "royalty_locked" := default (JBool false) (dict_get (u "locked") royalty)]>
  (<[u "royalty_percent" := default (JInt 0) (dict_get (u "percent") royalty)]> flattened)))).

End Stages.

(** ** Export *)

(** [a <= b] on [str]: lexicographic on code points, the order [sorted]
    uses. *)
Fixpoint str_leb (a b : pstr) : bool :=
  match a, b with
  | [], _ => true
  | _ :: _, [] => false
  | x :: a', y :: b' =>
      if (x <? y)%N then true
      else if (x =? y)%N then str_leb a' b'
      else false
  end.

Definition str_le : relation pstr := λ a b, str_leb a b = true.
Definition str_lt : relation pstr := λ a b, str_le a b ∧ a ≠ b.

Global Instance str_le_dec : RelDecision str_le.
Proof. intros a b. unfold str_le. apply _. Defined.

(** [sorted(fields)] of a set of strings. *)
Definition sorted (fields : gset pstr) : list pstr :=
  merge_sort str_le (elements fields).

(** *** The [csv] writer, excel dialect

    Delimiter [,], quote character U+0022 doubled inside a quoted field,
    [QUOTE_MINIMAL], line terminator CR LF. *)
Definition comma : N := chr ",".
Definition cr : N := 13%N.
Definition lf : N := 10%N.
Global Arguments comma : simpl never.
Global Arguments cr : simpl never.
Global Arguments lf : simpl never.

Definition csv_special (c : N) : bool :=
  (c =? comma)%N || (c =? dquote)%N || (c =? cr)%N || (c =? lf)%N.

Definition csv_escape (c : N) : pstr :=
  if (c =? dquote)%N then [dquote; dquote] else [c].

Definition csv_quoted (s : pstr) : pstr :=
  dquote :: flat_map csv_escape s ++ [dquote].

Definition csv_encode (s : pstr) : pstr :=
  if existsb csv_special s then csv_quoted s else s.

(** One record of text fields.  A record of one empty field is written
    as a quoted empty field, so that it is not an empty line. *)
Definition csv_line (fields : list pstr) : pstr :=
  match fields with
  | [[]] => [dquote; dquote]
  | _ => join [comma] (List.map csv_encode fields)
  end ++ [cr; lf].

Section CsvExport.
Context {rt : PyRuntime}.

(** The text the writer makes of a field: [None] is written as the empty
    string, a [str] as it is, anything else through [str()]. *)
Definition csv_field_text (v : json) : pstr :=
  match v with
  | JNone => []
  | JStr s => s
  | _ => py_str v
  end.

(** [writer.writerow(fields)]: the text appended to the file. *)
Definition csv_writerow (fields : list json) : pstr :=
  csv_line (List.map csv_field_text fields).

(** Line 124: [{field: nft.get(field, '') for field in fieldnames}]. *)
Definition project_row (fieldnames : list pstr) (nft : row) : row :=
  foldl (λ d field, <[field := default (JStr []) (nft !! field)]> d) ∅ fieldnames.

(** [DictWriter.writerow(rowdict)]: the fields in the order of
    [fieldnames], [''] for a missing one. *)
Definition dict_to_list (fieldnames : list pstr) (rowdict : row) : list json :=
  List.map (λ key, default (JStr []) (rowdict !! key)) fieldnames.

(** Lines 115-118: the rows and the union of their keys. *)
Fixpoint flatten_all (nfts : list json) (flattened_nfts : list row)
    (all_fields : gset pstr) : result (list row * gset pstr) :=
  match nfts with
  | [] => Ok (flattened_nfts, all_fields)
  | nft :: rest =>
      flattened ← flatten_metadata nft;
      flatten_all rest (flattened_nfts ++ [flattened]) (all_fields ∪ dom flattened)
  end.

(** Lines 121-125: the header and one line per row. *)
Definition csv_text (fieldnames : list pstr) (flattened_nfts : list row) : pstr :=
  csv_writerow (List.map JStr fieldnames) ++
  concat (List.map (λ nft, csv_writerow (dict_to_list fieldnames (project_row fieldnames nft)))
            flattened_nfts).

(** What [export_to_csv] acts on: the files by path, each with the text
    written to it, and the warnings [st.warning] has shown.  A file holds
    text: its encoding to UTF-8 bytes is below this model. *)
Record world := World {
  files : gmap pstr pstr;
  warnings : list pstr;
}.

(** [export_to_csv(nfts, filename)].  [timestamp] is the text
    [datetime.now().strftime("%Y%m%d_%H%M%S")] gives at the call; the file
    is taken to open.  An exception of [flatten_metadata] leaves before
    the file is opened. *)
Definition export_to_csv (timestamp : pstr) (nfts : list json)
    (filename : option pstr) (w : world) : result (option pstr) * world :=
  match nfts with
  | [] => (Ok None, World (files w) (warnings w ++ [u "No NFTs to export"]))
  | _ =>
      let filename :=
        match filename with
        | None => u "nft_metadata_" ++ timestamp ++ u ".csv"
        | Some f => f
        end in
      match flatten_all nfts [] ∅ with
      | Raise e => (Raise e, w)
      | Ok (flattened_nfts, all_fields) =>
          let fieldnames := sorted all_fields in
          (Ok (Some filename),
           World (<[filename := csv_text fieldnames flattened_nfts]> (files w)) (warnings w))
      end
  end.

End CsvExport.

(** *** Reading the file back: the [csv] reader, excel dialect

    The state machine of [csv.reader] on the text of a file opened with
    [newline='']: lines end at LF, at CR LF, or at a CR that no LF
    follows, and the reader is told of each end of line.  The reader's
    limit on the length of a field is left out. *)
Inductive parse_state :=
  | StartRecord | StartField | InField | InQuotedField | QuoteInQuotedField | EatCrnl.

Global Instance parse_state_eq_dec : EqDecision parse_state.
Proof. solve_decision. Defined.










(** ** Vocabulary of the specification *)

Section SpecWords.
Context {rt : PyRuntime}.

(** The value at a path of keys, when every step is a [dict] that has the
    key. *)
Fixpoint lookup_path (path : list pstr) (v : json) : option json :=
  match path with
  | [] => Some v
  | k :: rest =>
      match v with
      | JDict d => dict_get k d ≫= lookup_path rest
      | _ => None
      end
  end.

(** "First non-empty wins": the first candidate that is present and
    truthy. *)
Fixpoint first_nonempty (candidates : list (option json)) : option json :=
  match candidates with
  | [] => None
  | Some v :: rest => if truthy v then Some v else first_nonempty rest
  | None :: rest => first_nonempty rest
  end.

(** The candidates of main.py and of nft_extractor.py, in the order of
    the specification. *)
Definition candidates_rpc (nft : json) : list (option json) :=
  [lookup_path [u "content"; u "metadata"; u "name"] nft;
   lookup_path [u "content"; u "name"] nft;
   lookup_path [u "name"] nft].

Definition candidates_rest (nft : json) : list (option json) :=
  [lookup_path [u "content"; u "metadata"; u "name"] nft;
   lookup_path [u "content"; u "metadata"; u "title"] nft;
   lookup_path [u "content"; u "name"] nft;
   lookup_path [u "name"] nft].

(** The key [k] of the dict [d] is missing or holds a [dict]. *)
Definition dict_or_absent (k : pstr) (d : list (pstr * json)) : Prop :=
  match dict_get k d with
  | None | Some (JDict _) => True
  | Some _ => False
  end.

(** A record in which [content] and [content.metadata], when present, are
    mappings. *)
Definition name_shaped (nft : json) : Prop :=
  match nft with
  | JDict d =>
      match dict_get (u "content") d with
      | None => True
      | Some (JDict c) => dict_or_absent (u "metadata") c
      | Some _ => False
      end
  | _ => False
  end.

Definition is_dict (v : json) : Prop :=
  match v with
  | JDict _ => True
  | _ => False
  end.

(** A record in which [ownership], [content], [content.metadata],
    [royalty] and [supply], when present, are mappings, and [grouping],
    when present, is a list of mappings. *)
Definition flat_shaped (nft : json) : Prop :=
  name_shaped nft ∧
  match nft with
  | JDict d =>
      dict_or_absent (u "ownership") d ∧
      dict_or_absent (u "royalty") d ∧
      dict_or_absent (u "supply") d ∧
      match dict_get (u "grouping") d with
      | None => True
      | Some (JList gs) => Forall is_dict gs
      | Some _ => False
      end
  | _ => False
  end.

End SpecWords.

(** A record the filter is to keep: its display name resolves, is
    non-empty, and its text matches the year pattern. *)
Definition retained {rt : PyRuntime} (display_name : json → result json) (nft : json) : Prop :=
  ∃ name, display_name nft = Ok name ∧ truthy name = true ∧
          year_pattern_match (py_str name) = true ∧ year_in_range (py_str name).

Section Columns.
Context {rt : PyRuntime}.

(** The ten unconditional columns: the path each is read from and its
    documented default. *)
Definition unconditional : list (pstr * (list pstr * json)) :=
  [(u "mint_address", ([u "id"], JStr []));
   (u "owner", ([u "ownership"; u "owner"], JStr []));
   (u "frozen", ([u "ownership"; u "frozen"], JBool false));
   (u "delegated", ([u "ownership"; u "delegated"], JBool false));
   (u "name", ([u "content"; u "metadata"; u "name"], JStr []));
   (u "symbol", ([u "content"; u "metadata"; u "symbol"], JStr []));
   (u "description", ([u "content"; u "metadata"; u "description"], JStr []));
   (u "image", ([u "content"; u "metadata"; u "image"], JStr []));
   (u "animation_url", ([u "content"; u "metadata"; u "animation_url"], JStr []));
   (u "external_url", ([u "content"; u "metadata"; u "external_url"], JStr []))].

(** [f'attribute_{i}']. *)
Definition attribute_name (i : nat) : pstr := u "attribute_" ++ str_int (Z.of_nat i).

(** The column the attribute entry [attr] at index [i] writes, if it
    writes one. *)
Definition trait_column (i : nat) (attr : json) : option pstr :=
  match attr with
  | JDict a =>
      Some (u "trait_" ++
            sanitize (py_str (default (JStr (attribute_name i))
                                (dict_get (u "trait_type") a))))
  | _ => None
  end.

End Columns.

(** What the flattened row of [nft] has in the column [k]. *)
Definition column {rt : PyRuntime} (k : pstr) (nft : json) : result (option json) :=
  fl ← flatten_metadata nft; Ok (fl !! k).




(** [out] is what the year filter is to make of [nfts]: a subsequence, of
    matching records only, that leaves no matching record out. *)
Definition year_filtered {rt : PyRuntime} (display_name : json → result json)
    (nfts out : list json) : Prop :=
  out `sublist_of` nfts ∧
  Forall (retained display_name) out ∧
  ∀ nft, nft ∈ nfts → retained display_name nft → nft ∈ out.

(** ** Further vocabulary *)

Section MoreWords.
Context {rt : PyRuntime}.

(** The record gives nft_extractor.py no reason to fall back on the
    title: its [content.metadata.name] is non-empty, or its
    [content.metadata.title] is missing or empty. *)
Definition title_idle (nft : json) : bool :=
  truthy (default JNone (lookup_path [u "content"; u "metadata"; u "name"] nft))
  || negb (truthy (default JNone (lookup_path [u "content"; u "metadata"; u "title"] nft))).

(** The dict a value is, where the code calls on it a method that only a
    [dict] has. *)
Definition as_dict (v : json) : result (list (pstr * json)) :=
  match v with
  | JDict d => Ok d
  | _ => Raise AttributeError
  end.

(** The royalty and supply columns: the path each is read from and its
    default. *)
Definition royalty_supply : list (pstr * (list pstr * json)) :=
  [(u "royalty_percent", ([u "royalty"; u "percent"], JInt 0));
   (u "royalty_locked", ([u "royalty"; u "locked"], JBool false));
   (u "supply_print_max_supply", ([u "supply"; u "print_max_supply"], JInt 0));
   (u "supply_print_current_supply", ([u "supply"; u "print_current_supply"], JInt 0));
   (u "supply_edition_nonce", ([u "supply"; u "edition_nonce"], JStr []))].

(** The fifteen columns every flattened row has. *)
Definition fixed_columns : list pstr :=
  unconditional.*1 ++ royalty_supply.*1.

(** The top-level keys of a record that [flatten_metadata] reads. *)
Definition read_keys : list pstr :=
  [u "id"; u "ownership"; u "content"; u "grouping"; u "royalty"; u "supply"].

(** A grouping entry whose [group_key] is ['collection'], and the
    [group_value] the loop takes from it. *)
Definition is_collection (group : json) : bool :=
  match group with
  | JDict g => eq_str (default JNone (dict_get (u "group_key") g)) (u "collection")
  | _ => false
  end.

Definition group_value (group : json) : json :=
  match group with
  | JDict g => default (JStr []) (dict_get (u "group_value") g)
  | _ => JStr []
  end.

End MoreWords.

(** ** Sample records

    The records of the specification's scenarios, for the runtime
    [ascii_runtime]. *)

Definition sample_json : Type := @json ascii_runtime.

(** [{"name": s}]. *)
Definition named (s : string) : sample_json := JDict [(u "name", JStr (u s))].


(** Scenario 1:
    [{"id": "m1", "content": {"metadata": {"name": "1999 Relic",
      "attributes": [{"trait_type": "Rarity", "value": "Rare"}]}}}]. *)
Definition scenario1 : sample_json :=
  JDict [(u "id", JStr (u "m1"));
         (u "content", JDict [(u "metadata", JDict
            [(u "name", JStr (u "1999 Relic"));
             (u "attributes", JList
                [JDict [(u "trait_type", JStr (u "Rarity")); (u "value", JStr (u "Rare"))]])])])].

(** Scenario 4: the attribute entry at index 2 has no [trait_type]. *)
Definition rarity : sample_json :=
  JDict [(u "trait_type", JStr (u "Rarity")); (u "value", JStr (u "Rare"))].
Definition hat : sample_json :=
  JDict [(u "trait_type", JStr (u "Hat")); (u "value", JStr (u "Cap"))].
Definition untyped : list (pstr * sample_json) := [(u "value", JStr (u "Blue"))].

Definition scenario4_metadata : list (pstr * sample_json) :=
  [(u "name", JStr (u "2001 Odyssey"));
   (u "attributes", JList [rarity; hat; JDict untyped])].
Definition scenario4_content : list (pstr * sample_json) :=
  [(u "metadata", JDict scenario4_metadata)].
Definition scenario4_fields : list (pstr * sample_json) :=
  [(u "id", JStr (u "m4")); (u "content", JDict scenario4_content)].

(** Scenario 5: the metadata key [Custom Tag!] with the value [{"a": 1}]. *)
Definition scenario5_content : list (pstr * sample_json) :=
  [(u "metadata", JDict [(u "Custom Tag!", JDict [(u "a", JInt 1)])])].
Definition scenario5_fields : list (pstr * sample_json) :=
  [(u "content", JDict scenario5_content)].

(** The text [{"a": 1}]. *)
Definition scenario5_text : pstr :=
  [chr "{"; dquote; chr "a"; dquote; chr ":"; chr " "; chr "1"; chr "}"].

(** Two metadata keys with one sanitized name:
    [{"content": {"metadata": {"Tag!": 1, "Tag": 2}}}]. *)
Definition colliding : sample_json :=
  JDict [(u "content", JDict [(u "metadata", JDict
     [(u "Tag!", JInt 1); (u "Tag", JInt 2)])])].

(** Records with a nested field that is no mapping:
    [{"id": "m1", "ownership": "wallet"}], [{"content": null}] and
    [{"grouping": ["collection"]}]. *)
Definition ownership_text : sample_json :=
  JDict [(u "id", JStr (u "m1")); (u "ownership", JStr (u "wallet"))].
Definition content_null : sample_json := JDict [(u "content", JNone)].
Definition grouping_texts : sample_json :=
  JDict [(u "grouping", JList [JStr (u "collection")])].

(** A record whose identifier is [null]: [{"id": null}]. *)
Definition null_id : sample_json := JDict [(u "id", JNone)].

Definition sample_timestamp : pstr := u "20250101_120000".
Definition no_files : world := World ∅ [].

(** ** Tactics *)

(** The code points of the character literals in the goal. *)
Ltac chr_values :=
  repeat match goal with
  | |- context [chr ?a] => let v := eval vm_compute in (chr a) in change (chr a) with v
  | H : context [chr ?a] |- _ => let v := eval vm_compute in (chr a) in change (chr a) with v in H
  end.

(** Case analysis on the lookups and tests a straight-line body makes. *)
Ltac py_cases :=
  repeat first
    [ progress cbn [lookup_path py_get py_contains py_getitem py_iter mbind result_bind
                    first_nonempty option_bind default from_option id] in *
    | progress simplify_eq
    | match goal with
      | |- context [bool_decide (is_Some (Some ?x))] =>
          rewrite (bool_decide_eq_true_2 (is_Some (Some x))) by eauto
      | |- context [bool_decide (is_Some (@None ?A))] =>
          rewrite (bool_decide_eq_false_2 (is_Some (@None A))) by (by intros [? ?])
      | |- context [truthy (JStr [])] => change (truthy (JStr [])) with false
      | |- context [truthy JNone] => change (truthy JNone) with false
      | H : truthy ?v = _ |- context [truthy ?v] => rewrite H
      | |- context [dict_get ?k ?d] => destruct (dict_get k d) eqn:?
      | |- context [if truthy ?v then _ else _] => destruct (truthy v) eqn:?
      | |- context [match ?v with JNone => _ | _ => _ end] => is_var v; destruct v
      | H : context [match dict_get ?k ?d with _ => _ end] |- _ => destruct (dict_get k d) eqn:?
      | H : context [match ?v with JNone => _ | _ => _ end] |- _ => is_var v; destruct v
      end
    | done ].

(** Two column names differ when their texts do. *)
Ltac key_neq :=
  let H := fresh in
  intros; intros H; vm_compute in H; discriminate H.

(** One step of a body whose outcome is the hypothesis [H]. *)
Ltac run_in H :=
  cbn [py_get py_contains py_getitem mbind result_bind default from_option id] in H;
  try change (truthy (JStr [])) with false in H; cbv iota in H.

(** The outcomes of a body that is the hypothesis [H], one for each way
    its tests on the truth of a value can go. *)
Ltac outcome_in H :=
  do 3 run_in H;
  repeat match type of H with
  | context [if truthy ?v then _ else _] => destruct (truthy v); do 3 run_in H
  end.

(** ** The network, the page and the disk *)

Section Services.
Context {rt : PyRuntime}.

Inductive verb := GET | POST.

(** A request, as [requests.get] and [requests.post] are handed it: the
    address, the headers, the query parameters and the JSON payload. *)
Record request := Request {
  method : verb;
  url : pstr;
  headers : list (pstr * pstr);
  params : list (pstr * json);
  payload : option json;
}.

(** What sending a request, [response.raise_for_status()] and
    [response.json()] come to: the decoded body, or an exception of the
    class [requests.exceptions.RequestException] with its text.  (A body
    that is no JSON raises an exception of that class from requests 2.27
    on.) *)
Inductive reply :=
  | RequestException (text : pstr)
  | Decoded (data : json).

(** The calls the script makes on Streamlit, in the order it makes them.
    [StDataframe file] stands for [st.dataframe(pd.read_csv(file))] and
    the data of [StDownloadButton] is the file of that name, opened for
    reading; pandas is taken to read the file the export has written. *)
Inductive element :=
  | StTitle (body : pstr)
  | StMarkdown (body : pstr)
  | StTextInput (label : pstr) (password : bool)
  | StButton (label : pstr)
  | StError (body : pstr)
  | StWarning (body : pstr)
  | StSuccess (body : pstr)
  | StDataframe (file : pstr)
  | StDownloadButton (label data file_name mime : pstr).

(** What a run of the script acts on: the requests sent so far, the
    elements put on the page so far, and the files, by name. *)
Record system := System {
  sent : list request;
  screen : list element;
  disk : gmap pstr pstr;
}.

(** A step of the script: it returns or raises, and leaves a state. *)
Definition prog (A : Type) : Type := system → result A * system.

Global Instance prog_ret : MRet prog := λ A x a, (Ok x, a).
Global Instance prog_bind : MBind prog := λ A B f m a,
  match m a with
  | (Ok x, a') => f x a'
  | (Raise e, a') => (Raise e, a')
  end.

(** A computation that touches neither the network nor the page. *)
Definition lift {A} (m : result A) : prog A := λ a, (m, a).

(** A call on Streamlit that puts an element on the page. *)
Definition st_show (e : element) : prog () :=
  λ a, (Ok (), System (sent a) (screen a ++ [e]) (disk a)).

(** [self] of [NFTMetadataExtractor]. *)
Record extractor := Extractor {
  api_key : pstr;
  wallet_address : pstr;
  base_url : pstr;
}.

(** What the visitor has done when the script runs: the texts of the two
    inputs and whether the button has just been pressed.  [clock] is the
    text [datetime.now().strftime("%Y%m%d_%H%M%S")] gives when the export
    asks for it. *)
Record visit := Visit {
  api_key_text : pstr;
  wallet_address_text : pstr;
  fetch_pressed : bool;
  clock : pstr;
}.

(** [len(v)]. *)
Definition py_len (v : json) : result nat :=
  match v with
  | JList l => Ok (length l)
  | JDict d => Ok (length d)
  | JStr s => Ok (length s)
  | _ => Raise TypeError
  end.

(** [[item['id'] for item in items]]. *)
Fixpoint item_ids (items : list json) : result (list json) :=
  match items with
  | [] => Ok []
  | item :: rest =>
      asset_id ← py_getitem item (u "id");
      ids ← item_ids rest;
      Ok (asset_id :: ids)
  end.

(** [export_to_csv] on the files of the disk; a warning of its is shown
    on the page. *)
Definition run_export (timestamp : pstr) (nfts : list json) (filename : option pstr)
    : prog (option pstr) := λ a,
  let '(r, w) := export_to_csv timestamp nfts filename (World (disk a) []) in
  (r, System (sent a) (screen a ++ (StWarning <$> warnings w)) (files w)).

(** What lines 129-133 of main.py and 108-112 of nft_extractor.py put on
    the page: its head. *)
Definition page_head : list element :=
  [StTitle (u "NFT Metadata Extractor for Solana Wallet");
   StMarkdown (u "Fetch and export NFTs from your wallet by year (1990-2025).");
   StTextInput (u "Helius API Key") true;
   StTextInput (u "Solana Wallet Address") false;
   StButton (u "Fetch NFTs")].

(** Lines 149-159 of main.py and 123-133 of nft_extractor.py, the same
    text: what the script does with the filtered list. *)
Definition report (v : visit) (filtered_nfts : list json) : prog () :=
  if negb (truthy (JList filtered_nfts))
  then st_show (StWarning (u "No NFTs found with names starting with years 1990-2025."))
  else
    _ ← st_show (StSuccess (str_int (Z.of_nat (length filtered_nfts)) ++ u " NFTs matched."));
    filename ← run_export (clock v) filtered_nfts None;
    match filename with
    | Some filename =>
        if truthy (JStr filename)
        then
          _ ← st_show (StSuccess (u "Export complete: " ++ filename));
          _ ← st_show (StDataframe filename);
          st_show (StDownloadButton (u "Download CSV") filename filename (u "text/csv"))
        else mret ()
    | None => mret ()
    end.

End Services.

(** The network: the reply to a request, given the requests sent so far,
    the last of which is the request replied to. *)
Class Network {rt : PyRuntime} := {
  respond : list request → reply;
}.

Section Requests.
Context {rt : PyRuntime} {net : Network}.

(** [requests.post(...)] or [requests.get(...)], then
    [raise_for_status()] and [json()]. *)
Definition requests_send (r : request) : prog reply :=
  λ a, (Ok (respond (sent a ++ [r])), System (sent a ++ [r]) (screen a) (disk a)).

End Requests.

(** *** main.py *)

Module RpcApp.
Section Script.
Context {rt : PyRuntime} {net : Network}.

(** Lines 13-16. *)
Definition __init__ (api_key wallet_address : pstr) : extractor :=
  Extractor api_key wallet_address (u "https://mainnet.helius-rpc.com/?api-key=" ++ api_key).

(** Lines 19-29: the request of [get_assets_by_owner]. *)
Definition assets_by_owner_request (self : extractor) : request :=
  let headers := [(u "Content-Type", u "application/json")] in
  let payload :=
    JDict [(u "jsonrpc", JStr (u "2.0"));
           (u "id", JStr (u "1"));
           (u "method", JStr (u "getAssetsByOwner"));
           (u "params", JDict [(u "ownerAddress", JStr (wallet_address self));
                               (u "page", JInt 1);
                               (u "limit", JInt 1000)])] in
  Request POST (base_url self) headers [] (Some payload).

(** Lines 18-37. *)
Definition get_assets_by_owner (self : extractor) : prog (list json) :=
  response ← requests_send (assets_by_owner_request self);
  match response with
  | Decoded data =>
      lift (result ← py_get data (u "result") (JDict []);
            items ← py_get result (u "items") (JList []);
            items ← py_iter items;
            item_ids items)
  | RequestException e =>
      _ ← st_show (StError (u "Error fetching asset IDs: " ++ e));
      mret []
  end.

(** Lines 40-48: the request of [get_asset_by_id]. *)
Definition asset_by_id_request (self : extractor) (asset_id : json) : request :=
  let headers := [(u "Content-Type", u "application/json")] in
  let payload :=
    JDict [(u "jsonrpc", JStr (u "2.0"));
           (u "id", JStr (u "1"));
           (u "method", JStr (u "getAsset"));
           (u "params", JDict [(u "id", asset_id)])] in
  Request POST (base_url self) headers [] (Some payload).

(** Lines 39-55. *)
Definition get_asset_by_id (self : extractor) (asset_id : json) : prog json :=
  response ← requests_send (asset_by_id_request self asset_id);
  match response with
  | Decoded data => lift (py_get data (u "result") (JDict []))
  | RequestException e =>
      _ ← st_show (StError (u "Error fetching asset: " ++ e));
      mret (JDict [])
  end.

(** Lines 142-146: the loop over the asset ids. *)
Fixpoint fetch_assets (self : extractor) (asset_ids : list json) (all_nfts : list json)
    : prog (list json) :=
  match asset_ids with
  | [] => mret all_nfts
  | asset_id :: rest =>
      asset ← get_asset_by_id self asset_id;
      fetch_assets self rest (if truthy asset then all_nfts ++ [asset] else all_nfts)
  end.

(** Lines 128-159. *)
Definition main (v : visit) : prog () :=
  _ ← st_show (StTitle (u "NFT Metadata Extractor for Solana Wallet"));
  _ ← st_show (StMarkdown (u "Fetch and export NFTs from your wallet by year (1990-2025)."));
  _ ← st_show (StTextInput (u "Helius API Key") true);
  let api_key := api_key_text v in
  _ ← st_show (StTextInput (u "Solana Wallet Address") false);
  let wallet_address := wallet_address_text v in
  _ ← st_show (StButton (u "Fetch NFTs"));
  if fetch_pressed v
  then
    if negb (truthy (JStr api_key)) || negb (truthy (JStr wallet_address))
    then st_show (StError (u "Please provide both API Key and Wallet Address."))
    else
      let extractor := __init__ api_key wallet_address in
      asset_ids ← get_assets_by_owner extractor;
      if negb (truthy (JList asset_ids))
      then st_show (StWarning (u "No assets found or an error occurred."))
      else
        all_nfts ← fetch_assets extractor asset_ids [];
        _ ← st_show (StSuccess (u "Fetched " ++ str_int (Z.of_nat (length all_nfts))
                                ++ u " assets. Filtering by year 1990-2025..."));
        filtered_nfts ← lift (Rpc.filter_nfts_by_year all_nfts);
        report v filtered_nfts
  else mret ().

End Script.
End RpcApp.

(** *** nft_extractor.py *)

Module RestApp.
Section Script.
Context {rt : PyRuntime} {net : Network}.

(** Lines 13-16. *)
Definition __init__ (api_key wallet_address : pstr) : extractor :=
  Extractor api_key wallet_address (u "https://api.helius.xyz/v0").

(** Lines 19-20: the request of [get_nft_assets]. *)
Definition nft_assets_request (self : extractor) : request :=
  let url := base_url self ++ u "/addresses/" ++ wallet_address self ++ u "/nfts" in
  let params := [(u "api-key", JStr (api_key self)); (u "page", JInt 1); (u "limit", JInt 1000)] in
  Request GET url [] params None.

(** Lines 18-27. *)
Definition get_nft_assets (self : extractor) : prog json :=
  response ← requests_send (nft_assets_request self);
  match response with
  | Decoded data => mret data
  | RequestException e =>
      _ ← st_show (StError (u "Error fetching NFTs: " ++ e));
      mret (JList [])
  end.

(** Lines 107-133. *)
Definition main (v : visit) : prog () :=
  _ ← st_show (StTitle (u "NFT Metadata Extractor for Solana Wallet"));
  _ ← st_show (StMarkdown (u "Fetch and export NFTs from your wallet by year (1990-2025)."));
  _ ← st_show (StTextInput (u "Helius API Key") true);
  let api_key := api_key_text v in
  _ ← st_show (StTextInput (u "Solana Wallet Address") false);
  let wallet_address := wallet_address_text v in
  _ ← st_show (StButton (u "Fetch NFTs"));
  if fetch_pressed v
  then
    if negb (truthy (JStr api_key)) || negb (truthy (JStr wallet_address))
    then st_show (StError (u "Please provide both API Key and Wallet Address."))
    else
      let extractor := __init__ api_key wallet_address in
      nfts ← get_nft_assets extractor;
      if negb (truthy nfts)
      then st_show (StWarning (u "No NFTs found or an error occurred."))
      else
        count ← lift (py_len nfts);
        _ ← st_show (StSuccess (u "Found " ++ str_int (Z.of_nat count)
                                ++ u " NFTs. Filtering by year 1990-2025..."));
        items ← lift (py_iter nfts);
        filtered_nfts ← lift (Rest.filter_nfts_by_year items);
        report v filtered_nfts
  else mret ().

End Script.
End RestApp.

(** ** Further sample records, replies and visits *)

(** [{"id": "m2", "royalty": {"percent": 5}, "supply": {"print_max_supply": 10}}]. *)
Definition royal : sample_json :=
  JDict [(u "id", JStr (u "m2"));
         (u "royalty", JDict [(u "percent", JInt 5)]);
         (u "supply", JDict [(u "print_max_supply", JInt 10)])].

(** A record with three grouping entries, the second and the third for a
    collection, and the same record with a text after the second entry. *)
Definition creator_group : sample_json :=
  JDict [(u "group_key", JStr (u "creator")); (u "group_value", JStr (u "c1"))].
Definition collection_group : sample_json :=
  JDict [(u "group_key", JStr (u "collection")); (u "group_value", JStr (u "col1"))].
Definition second_collection_group : sample_json :=
  JDict [(u "group_key", JStr (u "collection")); (u "group_value", JStr (u "col2"))].

Definition grouped_fields : list (pstr * sample_json) :=
  [(u "id", JStr (u "m5"));
   (u "grouping", JList [creator_group; collection_group; second_collection_group])].
Definition grouped_junk_fields : list (pstr * sample_json) :=
  [(u "id", JStr (u "m5"));
   (u "grouping", JList [creator_group; collection_group; JStr (u "junk")])].

(** Scenario 4 with a top-level key the flattening does not read. *)
Definition scenario4_interface_fields : list (pstr * sample_json) :=
  (u "interface", JStr (u "V1_NFT")) :: scenario4_fields.

(** [{"grouping": null}]. *)
Definition grouping_null : sample_json := JDict [(u "grouping", JNone)].

(** A network that gives the replies of a script, one for each request in
    turn, and fails when the script is over. *)
Definition scripted (replies : list (@reply ascii_runtime)) : @Network ascii_runtime :=
  {| respond := λ history,
       default (RequestException (u "timeout")) (replies !! (length history - 1)) |}.

(** [{"result": {"items": [{"id": "m1"}, {"id": "m4"}]}}]. *)
Definition listing_items : list sample_json :=
  [JDict [(u "id", JStr (u "m1"))]; JDict [(u "id", JStr (u "m4"))]].
Definition listing : sample_json :=
  JDict [(u "result", JDict [(u "items", JList listing_items)])].

(** [{"error": "Unauthorized"}]. *)
Definition unauthorized : sample_json := JDict [(u "error", JStr (u "Unauthorized"))].

Definition rpc_self : extractor := RpcApp.__init__ (u "key") (u "wallet").
Definition idle : @system ascii_runtime := System [] [] ∅.

(** The button pressed with both inputs filled, and with both empty. *)
Definition filled : visit := Visit (u "key") (u "wallet") true sample_timestamp.
Definition blank : visit := Visit [] [] true sample_timestamp.

(** * Properties *)


(** ** Sanitization *)

Section SanitizeFacts.
Context {rt : PyRuntime}.

Lemma is_space_space : is_space (chr " ") = true.
Proof. reflexivity. Qed.

Lemma is_space_underscore : is_space (chr "_") = false.
Proof. reflexivity. Qed.

Lemma keeps_underscore : keeps (chr "_") = true.
Proof. reflexivity. Qed.

Lemma keeps_spec_allowed c : keeps c = spec_allowed c.
Proof. unfold keeps, spec_allowed, is_word. by destruct (is_alnum c), (c =? chr "_")%N. Qed.

Lemma re_sub_disallowed_spec s : re_sub_disallowed s = List.filter spec_allowed s.
Proof.
  unfold re_sub_disallowed. induction s as [|c s IH]; [done|].
  simpl. by rewrite keeps_spec_allowed, IH.
Qed.

(** *** Trimming *)

Lemma lstrip_head s c r : lstrip s = c :: r → is_space c = false.
Proof.
  induction s as [|d s IH]; simpl; [done|].
  destruct (is_space d) eqn:Hd; [done|]. by intros [= <- _].
Qed.

Lemma lstrip_id c r : is_space c = false → lstrip (c :: r) = c :: r.
Proof. simpl. by intros ->. Qed.

Lemma rstrip_cons c r : is_space c = false → rstrip (c :: r) = c :: rstrip r.
Proof. simpl. intros ->. by destruct (rstrip r). Qed.

Lemma rstrip_last s : from_option is_space false (last (rstrip s)) = false.
Proof.
  induction s as [|c s IH]; simpl; [done|].
  destruct (rstrip s) as [|d r] eqn:E.
  - destruct (is_space c) eqn:Hc; simpl; done.
  - by rewrite last_cons_cons.
Qed.

Lemma rstrip_id s : from_option is_space false (last s) = false → rstrip s = s.
Proof.
  induction s as [|c s IH]; simpl; [done|].
  destruct s as [|d s].
  - simpl. by intros ->.
  - rewrite last_cons_cons. intros H. rewrite (IH H). done.
Qed.


Lemma strip_trimmed s : trimmed (strip s).
Proof.
  unfold strip. split; [|apply rstrip_last].
  destruct (lstrip s) as [|c r] eqn:E; [done|].
  pose proof (lstrip_head _ _ _ E) as Hc.
  by rewrite (rstrip_cons _ _ Hc).
Qed.

Lemma strip_id s : trimmed s → strip s = s.
Proof.
  intros [Hh Hl]. unfold strip.
  destruct s as [|c r]; [done|]. simpl in Hh.
  rewrite (lstrip_id _ _ Hh). by apply rstrip_id.
Qed.

(** *** Replacing the spaces *)

Lemma replace_space_char c :
  is_space c = false → (if (c =? chr " ")%N then chr "_" else c) = c.
Proof.
  intros Hc. destruct (N.eqb_spec c (chr " ")) as [->|]; [|done].
  by rewrite is_space_space in Hc.
Qed.

Lemma replace_space_is_space c :
  is_space (if (c =? chr " ")%N then chr "_" else c) = true →
  is_space c = true.
Proof.
  destruct (N.eqb_spec c (chr " ")) as [->|]; [|done].
  by rewrite is_space_underscore.
Qed.

Lemma replace_char_cons old new c s :
  replace_char old new (c :: s) =
  (if (c =? old)%N then new else c) :: replace_char old new s.
Proof. done. Qed.

Lemma replace_head s :
  from_option is_space false (head s) = false →
  from_option is_space false (head (replace_char (chr " ") (chr "_") s)) = false.
Proof.
  destruct s as [|c r]; [done|]. simpl. intros Hc. by rewrite replace_space_char.
Qed.

Lemma replace_last s :
  from_option is_space false (last s) = false →
  from_option is_space false (last (replace_char (chr " ") (chr "_") s)) = false.
Proof.
  unfold replace_char. change (List.map ?f s) with (f <$> s). rewrite fmap_last.
  destruct (last s) as [c|]; [|done]. simpl. intros Hc. by rewrite replace_space_char.
Qed.

Lemma replace_trimmed s : trimmed s → trimmed (replace_char (chr " ") (chr "_") s).
Proof. intros [??]. split; [by apply replace_head | by apply replace_last]. Qed.

Lemma replace_no_space s :
  Forall (λ c, c ≠ chr " ") s → replace_char (chr " ") (chr "_") s = s.
Proof.
  induction 1 as [|c s Hc _ IH]; [done|]. rewrite replace_char_cons, IH.
  by destruct (N.eqb_spec c (chr " ")).
Qed.

(** The sanitized text has no space left and only characters the
    substitution keeps. *)
Lemma replace_chars s :
  Forall (λ c, keeps c = true) s →
  Forall (λ c, keeps c = true ∧ c ≠ chr " ") (replace_char (chr " ") (chr "_") s).
Proof.
  induction 1 as [|c s Hc _ IH]; [constructor|].
  rewrite replace_char_cons. constructor; [|done].
  destruct (N.eqb_spec c (chr " ")); [|done].
  split; [apply keeps_underscore | done].
Qed.

Lemma filter_keeps s : Forall (λ c, keeps c = true) (re_sub_disallowed s).
Proof.
  unfold re_sub_disallowed. apply Forall_forall. intros c Hc.
  by apply list_elem_of_In, filter_In in Hc as [_ ?].
Qed.

Lemma filter_all (f : N → bool) s : Forall (λ c, f c = true) s → List.filter f s = s.
Proof. induction 1 as [|c s Hc _ IH]; [done|]. simpl. by rewrite Hc, IH. Qed.

Lemma lstrip_suffix s : lstrip s `suffix_of` s.
Proof.
  induction s as [|c s IH]; simpl; [done|].
  destruct (is_space c); [by apply suffix_cons_r | done].
Qed.

Lemma rstrip_prefix s : rstrip s `prefix_of` s.
Proof.
  induction s as [|c s IH]; simpl; [done|].
  destruct (rstrip s) as [|d r] eqn:E.
  - destruct (is_space c); [apply prefix_nil | by apply prefix_cons, prefix_nil].
  - by apply prefix_cons.
Qed.

Lemma strip_Forall (P : N → Prop) s : Forall P s → Forall P (strip s).
Proof.
  intros H. unfold strip.
  destruct (rstrip_prefix (lstrip s)) as [k1 E1].
  destruct (lstrip_suffix s) as [k2 E2].
  rewrite E2, E1 in H. by apply Forall_app in H as [_ [? _]%Forall_app].
Qed.

Lemma sanitize_chars s :
  Forall (λ c, keeps c = true ∧ c ≠ chr " ") (sanitize s).
Proof. unfold sanitize. apply replace_chars, strip_Forall, filter_keeps. Qed.

Lemma sanitize_trimmed s : trimmed (sanitize s).
Proof. apply replace_trimmed, strip_trimmed. Qed.

(** A text that is already clean is left as it is. *)
Lemma sanitize_fixpoint s :
  Forall (λ c, keeps c = true ∧ c ≠ chr " ") s → trimmed s → sanitize s = s.
Proof.
  intros Hs Ht. unfold sanitize, re_sub_disallowed.
  rewrite filter_all by (eapply Forall_impl; [done|]; by intros ? [??]).
  rewrite strip_id by done.
  apply replace_no_space. eapply Forall_impl; [done|]. by intros ? [??].
Qed.


Lemma plain_keeps c :
  plain c = true → (keeps c = true ∧ c ≠ chr " ") ∧ is_space c = false.
Proof.
  unfold plain, keeps, is_word, is_alnum, is_space.
  intros [Hc Hp]%andb_true_iff. rewrite Hc.
  split; [split|].
  - by rewrite Hp.
  - intros ->. done.
  - apply not_true_is_false. revert Hp. unfold ascii_alnum, ascii_space, between.
    chr_values.
    rewrite !orb_true_iff, !andb_true_iff, !N.leb_le, !N.eqb_eq. lia.
Qed.

Lemma sanitize_plain s : Forall (λ c, plain c = true) s → sanitize s = s.
Proof.
  intros Hs. apply sanitize_fixpoint.
  - eapply Forall_impl; [done|]. intros c Hc. by apply plain_keeps.
  - split.
    + destruct Hs as [|c s Hc _]; [done|]. by apply plain_keeps.
    + destruct (last s) as [c|] eqn:E; [|done]. simpl.
      apply last_Some_elem_of in E.
      rewrite Forall_forall in Hs. by apply plain_keeps, Hs.
Qed.

(** (C9) Sanitization is idempotent: sanitizing a sanitized text gives the
    same text again. *)
Theorem sanitize_idempotent (s : pstr) : sanitize (sanitize s) = sanitize s.
Proof. apply sanitize_fixpoint; [apply sanitize_chars | apply sanitize_trimmed]. Qed.

(** *** Comparison with the specification's wording *)

Lemma collapse_runs_length b s : length (collapse_runs b s) ≤ length s.
Proof.
  revert b. induction s as [|c s IH]; intros b; simpl; [done|].
  pose proof (IH true). pose proof (IH false).
  destruct (is_space c); [destruct b|]; simpl; lia.
Qed.

Lemma collapse_runs_flag s :
  from_option is_space false (head s) = false →
  collapse_runs true s = collapse_runs false s.
Proof. destruct s as [|c s]; [done|]. simpl. by intros ->. Qed.

Lemma collapse_runs_replace s :
  collapse_runs false s = replace_char (chr " ") (chr "_") s ↔
  single_spaced s = true.
Proof.
  induction s as [|c s IH]; [done|].
  rewrite replace_char_cons. simpl.
  destruct (is_space c) eqn:Hc.
  - rewrite !andb_true_iff, negb_true_iff, N.eqb_eq. split.
    + intros [= Hhd Htl].
      assert (c = chr " ") as ->.
      { destruct (N.eqb_spec c (chr " ")); [done|].
        subst c. by rewrite is_space_underscore in Hc. }
      assert (from_option is_space false (head s) = false) as Hs.
      { destruct s as [|d s']; [done|]. simpl. destruct (is_space d) eqn:Hd; [|done].
        exfalso. simpl in Htl. rewrite Hd in Htl.
        pose proof (collapse_runs_length true s') as Hlen.
        rewrite Htl in Hlen. unfold replace_char in Hlen.
        rewrite length_cons, length_map in Hlen. lia. }
      rewrite collapse_runs_flag in Htl by done. by apply IH in Htl.
    + intros [[-> Hs] Hss]. rewrite collapse_runs_flag by done.
      apply IH in Hss as ->. done.
  - rewrite replace_space_char by done. simpl. rewrite <- IH. split; [by intros [= ?] | by intros ->].
Qed.

(** (C3, as the code has it) The sanitization deletes the disallowed
    characters, trims, and replaces every space by its own underscore.  It
    equals the specification's wording exactly on the inputs whose
    white space, after deletion and trimming, consists of single spaces:
    a longer run, a tab or a newline makes the two differ. *)
Theorem sanitize_spec_iff (s : pstr) :
  sanitize s = replace_char (chr " ") (chr "_") (strip (List.filter spec_allowed s)) ∧
  (sanitize s = sanitize_spec s ↔
   single_spaced (strip (List.filter spec_allowed s)) = true).
Proof.
  unfold sanitize, sanitize_spec. rewrite re_sub_disallowed_spec. split; [done|].
  rewrite <- collapse_runs_replace. split; by intros ->.
Qed.

End SanitizeFacts.

(** (C3, as stated) The code and the specification's wording differ on two
    consecutive spaces, which the code turns into two underscores, and on a
    tab, which the code keeps. *)
Lemma sanitize_spec_counterexample :
  sanitize (rt:=ascii_runtime) (u "a  b") = u "a__b" ∧
  sanitize_spec (rt:=ascii_runtime) (u "a  b") = u "a_b" ∧
  sanitize (rt:=ascii_runtime) [chr "a"; 9%N; chr "b"] = [chr "a"; 9%N; chr "b"] ∧
  sanitize_spec (rt:=ascii_runtime) [chr "a"; 9%N; chr "b"] = u "a_b" ∧
  sanitize (rt:=ascii_runtime) (u "a  b") ≠ sanitize_spec (rt:=ascii_runtime) (u "a  b").
Proof. by vm_compute. Qed.

(** ** The year filter *)


Lemma year_pattern_match_spec (s : pstr) :
  year_pattern_match s = true ↔ year_in_range s.
Proof.
  unfold year_in_range.
  destruct s as [|c1 [|c2 [|c3 [|c4 r]]]];
    try (split; [done | by intros (? & ? & ?)]).
  unfold year_pattern_match, year_prefix, digit_value, between.
  chr_values.
  rewrite !orb_true_iff, !andb_true_iff, !N.eqb_eq, !N.leb_le.
  split.
  - intros H.
    exists (1000 * (c1 - 48) + 100 * (c2 - 48) + 10 * (c3 - 48) + (c4 - 48))%N.
    assert ((48 <=? c1)%N && (c1 <=? 57)%N = true) as -> by (apply andb_true_iff; rewrite !N.leb_le; lia).
    assert ((48 <=? c2)%N && (c2 <=? 57)%N = true) as -> by (apply andb_true_iff; rewrite !N.leb_le; lia).
    assert ((48 <=? c3)%N && (c3 <=? 57)%N = true) as -> by (apply andb_true_iff; rewrite !N.leb_le; lia).
    assert ((48 <=? c4)%N && (c4 <=? 57)%N = true) as -> by (apply andb_true_iff; rewrite !N.leb_le; lia).
    simpl. split; [done | lia].
  - intros (y & Hy & Hr).
    destruct ((48 <=? c1)%N && (c1 <=? 57)%N) eqn:H1; [|done].
    destruct ((48 <=? c2)%N && (c2 <=? 57)%N) eqn:H2; [|done].
    destruct ((48 <=? c3)%N && (c3 <=? 57)%N) eqn:H3; [|done].
    destruct ((48 <=? c4)%N && (c4 <=? 57)%N) eqn:H4; [|done].
    simpl in Hy. injection Hy as <-.
    apply andb_true_iff in H1, H2, H3, H4. rewrite !N.leb_le in *. lia.
Qed.


Section FilterFacts.
Context {rt : PyRuntime}.

Lemma rpc_display_name_shaped nft :
  name_shaped nft →
  ∃ n, Rpc.display_name nft = Ok n ∧
       match first_nonempty (candidates_rpc nft) with
       | Some c => n = c
       | None => truthy n = false
       end.
Proof.
  intros Hs. destruct nft as [| | | | | |d]; try done.
  unfold Rpc.display_name, candidates_rpc, name_shaped, dict_or_absent in *.
  py_cases; eauto.
Qed.

Lemma rest_display_name_shaped nft :
  name_shaped nft →
  ∃ n, Rest.display_name nft = Ok n ∧
       match first_nonempty (candidates_rest nft) with
       | Some c => n = c
       | None => truthy n = false
       end.
Proof.
  intros Hs. destruct nft as [| | | | | |d]; try done.
  unfold Rest.display_name, candidates_rest, name_shaped, dict_or_absent in *.
  py_cases; eauto.
Qed.

Lemma rpc_display_name_returns nft n : Rpc.display_name nft = Ok n → name_shaped nft.
Proof.
  unfold Rpc.display_name, name_shaped, dict_or_absent. intros H.
  destruct nft as [| | | | | |d]; try done.
  run_in H.
  destruct (dict_get (u "content") d) as [[| | | | | |c]|]; try done.
  run_in H.
  destruct (dict_get (u "metadata") c) as [[| | | | | |m]|]; try done.
Qed.

Lemma rest_display_name_returns nft n : Rest.display_name nft = Ok n → name_shaped nft.
Proof.
  unfold Rest.display_name, name_shaped, dict_or_absent. intros H.
  destruct nft as [| | | | s|l|d]; run_in H; try done.
  - destruct (is_substring _ s); run_in H; done.
  - destruct (existsb _ l); run_in H; done.
  - destruct (dict_get (u "content") d) as [content|] eqn:Hc; [|done].
    rewrite bool_decide_eq_true_2 in H by eauto. run_in H.
    destruct content as [| | | | s|l|c]; run_in H; try done.
    + destruct (is_substring _ s); run_in H; done.
    + destruct (existsb _ l); run_in H; done.
    + destruct (dict_get (u "metadata") c) as [[| | | | | |m]|] eqn:Hm; try done;
        rewrite bool_decide_eq_true_2 in H by eauto; run_in H; done.
Qed.

Lemma matches_year_retained (display_name : json → result json) nft name :
  display_name nft = Ok name →
  truthy name && year_pattern_match (py_str name) = true ↔ retained display_name nft.
Proof.
  intros Hn. split.
  - intros [Ht Hy]%andb_true_iff. exists name.
    split_and!; [done..|]. by apply year_pattern_match_spec.
  - intros (name' & Hn' & Ht & Hy & _). rewrite Hn in Hn'. injection Hn' as <-.
    by rewrite Ht, Hy.
Qed.

(** The loop of either file, for its way [display_name] of resolving the
    name. *)
Lemma filter_loop_sound (display_name : json → result json)
    (loop : list json → result (list json)) :
  (∀ nft rest, loop (nft :: rest) =
     name ← display_name nft; filtered ← loop rest;
     Ok (if truthy name && year_pattern_match (py_str name)
         then nft :: filtered else filtered)) →
  loop [] = Ok [] →
  ∀ nfts out, loop nfts = Ok out → year_filtered display_name nfts out.
Proof.
  intros Hcons Hnil nfts. induction nfts as [|nft rest IH]; intros out.
  { rewrite Hnil. intros [= <-]. split_and!; [done | constructor |]. by intros ? ?%elem_of_nil. }
  rewrite Hcons.
  destruct (display_name nft) as [name|] eqn:Hn; cbn [mbind result_bind]; [|done].
  destruct (loop rest) as [filtered|]; cbn [mbind result_bind]; [|done].
  destruct (IH filtered eq_refl) as (Hsub & Hall & Hcomplete).
  pose proof (matches_year_retained display_name nft name Hn) as Hret.
  destruct (truthy name && year_pattern_match (py_str name)) eqn:Hm; intros [= <-].
  - split_and!; [by apply sublist_skip | constructor; [by apply Hret | done] |].
    intros x [->|Hx]%elem_of_cons Hx'; [by left | right; by apply Hcomplete].
  - split_and!; [by apply sublist_cons | done |].
    intros x [->|Hx]%elem_of_cons Hx'; [|by apply Hcomplete].
    apply Hret in Hx'. done.
Qed.

Lemma rpc_filter_sound nfts out :
  Rpc.filter_nfts_by_year nfts = Ok out → year_filtered Rpc.display_name nfts out.
Proof. by apply filter_loop_sound. Qed.

Lemma rest_filter_sound nfts out :
  Rest.filter_nfts_by_year nfts = Ok out → year_filtered Rest.display_name nfts out.
Proof. by apply filter_loop_sound. Qed.





Lemma rpc_display_name_first nft n :
  Rpc.display_name nft = Ok n →
  match first_nonempty (candidates_rpc nft) with
  | Some c => n = c
  | None => truthy n = false
  end.
Proof.
  intros Hn. destruct (rpc_display_name_shaped nft) as (n' & Hn' & H).
  - by eapply rpc_display_name_returns.
  - rewrite Hn in Hn'. by injection Hn' as <-.
Qed.

Lemma rest_display_name_first nft n :
  Rest.display_name nft = Ok n →
  match first_nonempty (candidates_rest nft) with
  | Some c => n = c
  | None => truthy n = false
  end.
Proof.
  intros Hn. destruct (rest_display_name_shaped nft) as (n' & Hn' & H).
  - by eapply rest_display_name_returns.
  - rewrite Hn in Hn'. by injection Hn' as <-.
Qed.


End FilterFacts.

(** ** Flattening *)


Section FlattenFacts.
Context {rt : PyRuntime}.

Lemma flatten_metadata_inv nft fl :
  flatten_metadata nft = Ok fl ↔
  ∃ d own c md roy sup gs flg,
    nft = JDict d ∧
    default (JDict []) (dict_get (u "ownership") d) = JDict own ∧
    default (JDict []) (dict_get (u "content") d) = JDict c ∧
    default (JDict []) (dict_get (u "metadata") c) = JDict md ∧
    default (JDict []) (dict_get (u "royalty") d) = JDict roy ∧
    default (JDict []) (dict_get (u "supply") d) = JDict sup ∧
    py_iter (default (JList []) (dict_get (u "grouping") d)) = Ok gs ∧
    grouping_loop gs (expand_attributes md (fixed_fields d own md)) = Ok flg ∧
    fl = residual_loop md (tail_fields roy sup flg).
Proof.
  split.
  - unfold flatten_metadata.
    destruct nft as [| | | | | |d]; try done.
    cbn [py_get mbind result_bind].
    destruct (default (JDict []) (dict_get (u "ownership") d)) as [| | | | | |own] eqn:Hown; try done.
    cbn [py_get mbind result_bind].
    destruct (default (JDict []) (dict_get (u "content") d)) as [| | | | | |c] eqn:Hc; try done.
    cbn [py_get mbind result_bind].
    destruct (default (JDict []) (dict_get (u "metadata") c)) as [| | | | | |md] eqn:Hmd; try done.
    cbn [py_get mbind result_bind].
    destruct (py_iter (default (JList []) (dict_get (u "grouping") d))) as [gs|] eqn:Hgs; [|done].
    cbn [py_get mbind result_bind].
    fold (fixed_fields d own md). fold (expand_attributes md (fixed_fields d own md)).
    destruct (grouping_loop gs _) as [flg|] eqn:Hg; [|done].
    cbn [py_get mbind result_bind].
    destruct (default (JDict []) (dict_get (u "royalty") d)) as [| | | | | |roy] eqn:Hroy; try done.
    cbn [py_get mbind result_bind].
    destruct (default (JDict []) (dict_get (u "supply") d)) as [| | | | | |sup] eqn:Hsup; try done.
    cbn [py_get mbind result_bind].
    intros [= <-]. by exists d, own, c, md, roy, sup, gs, flg.
  - intros (d & own & c & md & roy & sup & gs & flg
            & -> & Hown & Hc & Hmd & Hroy & Hsup & Hgs & Hg & ->).
    unfold flatten_metadata. cbn [py_get mbind result_bind].
    rewrite Hown. cbn [py_get mbind result_bind].
    rewrite Hc. cbn [py_get mbind result_bind].
    rewrite Hmd. cbn [py_get mbind result_bind].
    rewrite Hgs. cbn [py_get mbind result_bind].
    fold (fixed_fields d own md). fold (expand_attributes md (fixed_fields d own md)).
    rewrite Hg. cbn [py_get mbind result_bind].
    rewrite Hroy. cbn [py_get mbind result_bind].
    rewrite Hsup. cbn [py_get mbind result_bind]. done.
Qed.

(** *** Which stage writes which column *)

Lemma attribute_step_column fl i a :
  attribute_step fl i a =
  match trait_column i a, a with
  | Some k, JDict e => <[k := default (JStr []) (dict_get (u "value") e)]> fl
  | _, _ => fl
  end.
Proof. by destruct a. Qed.

Lemma attribute_step_other fl i a k :
  trait_column i a ≠ Some k → attribute_step fl i a !! k = fl !! k.
Proof.
  rewrite attribute_step_column. destruct a; try done. simpl.
  intros Hk. apply lookup_insert_ne. congruence.
Qed.

Lemma attributes_loop_other l i fl k :
  (∀ j a, l !! j = Some a → trait_column (i + j) a ≠ Some k) →
  attributes_loop i l fl !! k = fl !! k.
Proof.
  revert i fl. induction l as [|a l IH]; intros i fl Hl; [done|]. simpl.
  rewrite IH.
  - apply attribute_step_other. specialize (Hl 0 a eq_refl). by rewrite Nat.add_0_r in Hl.
  - intros j a' Hj. specialize (Hl (S j) a' Hj). by rewrite Nat.add_succ_r in Hl.
Qed.

Lemma trait_column_prefix i a k : trait_column i a = Some k → ∃ x, k = u "trait_" ++ x.
Proof. destruct a; try done. intros [= <-]. eauto. Qed.

Lemma attributes_loop_not_trait l i fl k :
  (∀ x, k ≠ u "trait_" ++ x) → attributes_loop i l fl !! k = fl !! k.
Proof.
  intros Hk. apply attributes_loop_other. intros j a _ Ha.
  apply trait_column_prefix in Ha as [x ->]. by eapply Hk.
Qed.

Lemma attributes_loop_is_Some l i fl k :
  is_Some (fl !! k) → is_Some (attributes_loop i l fl !! k).
Proof.
  revert i fl. induction l as [|a l IH]; intros i fl Hk; [done|]. simpl.
  apply IH. rewrite attribute_step_column.
  destruct (trait_column i a), a; try done.
  rewrite lookup_insert. by case_decide.
Qed.

Lemma attributes_loop_app l1 l2 i fl :
  attributes_loop i (l1 ++ l2) fl = attributes_loop (i + length l1) l2 (attributes_loop i l1 fl).
Proof.
  revert i fl. induction l1 as [|a l1 IH]; intros i fl; simpl.
  - by rewrite Nat.add_0_r.
  - rewrite IH. f_equal. lia.
Qed.

Lemma grouping_loop_other gs fl fl' k :
  grouping_loop gs fl = Ok fl' → k ≠ u "collection_address" → fl' !! k = fl !! k.
Proof.
  revert fl'. induction gs as [|g gs IH]; intros fl'; cbn [grouping_loop].
  { by intros [= <-]. }
  destruct (py_get g (u "group_key") JNone) as [key|]; cbn [mbind result_bind]; [|done].
  destruct (eq_str key (u "collection")); [|by apply IH].
  destruct (py_get g (u "group_value") (JStr [])) as [value|]; cbn [mbind result_bind]; [|done].
  intros [= <-] Hk. by rewrite lookup_insert_ne.
Qed.

Lemma grouping_loop_returns gs fl : Forall is_dict gs → returns (grouping_loop gs fl).
Proof.
  induction 1 as [|g gs Hg _ IH]; cbn [grouping_loop]; [by eexists|].
  destruct g; try done. cbn [py_get mbind result_bind].
  destruct (eq_str _ _); [by eexists | done].
Qed.

Lemma residual_loop_other md fl k :
  (∀ key value, (key, value) ∈ md → key ∉ consumed → k ≠ u "metadata_" ++ sanitize key) →
  residual_loop md fl !! k = fl !! k.
Proof.
  revert fl. induction md as [|[key value] md IH]; intros fl Hk; [done|]. simpl.
  rewrite IH by (intros ????; eapply Hk; [by right | done]).
  case_bool_decide; [done|].
  apply lookup_insert_ne. apply not_eq_sym. eapply Hk; [by left | done].
Qed.

Lemma residual_loop_not_metadata md fl k :
  (∀ x, k ≠ u "metadata_" ++ x) → residual_loop md fl !! k = fl !! k.
Proof. intros Hk. apply residual_loop_other. intros ????. apply Hk. Qed.

Lemma residual_loop_is_Some md fl k :
  is_Some (fl !! k) → is_Some (residual_loop md fl !! k).
Proof.
  revert fl. induction md as [|[key value] md IH]; intros fl Hk; [done|]. simpl.
  apply IH. case_bool_decide; [done|]. rewrite lookup_insert. by case_decide.
Qed.

Lemma residual_loop_app md1 md2 fl :
  residual_loop (md1 ++ md2) fl = residual_loop md2 (residual_loop md1 fl).
Proof. revert fl. induction md1 as [|[key value] md1 IH]; intros fl; [done|]. simpl. by rewrite IH. Qed.

Lemma tail_fields_other roy sup fl k :
  k ≠ u "royalty_percent" → k ≠ u "royalty_locked" →
  k ≠ u "supply_print_max_supply" → k ≠ u "supply_print_current_supply" →
  k ≠ u "supply_edition_nonce" →
  tail_fields roy sup fl !! k = fl !! k.
Proof. intros. unfold tail_fields. by rewrite !lookup_insert_ne. Qed.

Lemma tail_fields_is_Some roy sup fl k :
  is_Some (fl !! k) → is_Some (tail_fields roy sup fl !! k).
Proof.
  intros. unfold tail_fields.
  repeat (rewrite lookup_insert; case_decide; [done|]). done.
Qed.

(** A column that neither loop nor the later stages write holds what the
    fixed fields gave it. *)
Lemma flatten_lookup_fixed d own md roy sup gs flg k :
  grouping_loop gs (expand_attributes md (fixed_fields d own md)) = Ok flg →
  (∀ x, k ≠ u "trait_" ++ x) → (∀ x, k ≠ u "metadata_" ++ x) →
  k ≠ u "collection_address" →
  k ≠ u "royalty_percent" → k ≠ u "royalty_locked" →
  k ≠ u "supply_print_max_supply" → k ≠ u "supply_print_current_supply" →
  k ≠ u "supply_edition_nonce" →
  residual_loop md (tail_fields roy sup flg) !! k = fixed_fields d own md !! k.
Proof.
  intros Hg ????????.
  rewrite residual_loop_not_metadata, tail_fields_other by done.
  rewrite (grouping_loop_other _ _ _ _ Hg) by done.
  unfold expand_attributes. destruct (default _ _); try done.
  by apply attributes_loop_not_trait.
Qed.

Lemma default_lookup_path_1 (dflt : json) k d :
  default dflt (lookup_path [k] (JDict d)) = default dflt (dict_get k d).
Proof. simpl. by destruct (dict_get k d). Qed.

Lemma default_lookup_path_2 (dflt : json) k1 k2 d d1 :
  default (JDict []) (dict_get k1 d) = JDict d1 →
  default dflt (lookup_path [k1; k2] (JDict d)) = default dflt (dict_get k2 d1).
Proof.
  simpl. destruct (dict_get k1 d) as [v|]; simpl.
  - intros ->. by destruct (dict_get k2 d1).
  - by intros [= <-].
Qed.

Lemma default_lookup_path_3 (dflt : json) k1 k2 k3 d d1 d2 :
  default (JDict []) (dict_get k1 d) = JDict d1 →
  default (JDict []) (dict_get k2 d1) = JDict d2 →
  default dflt (lookup_path [k1; k2; k3] (JDict d)) = default dflt (dict_get k3 d2).
Proof.
  simpl. destruct (dict_get k1 d) as [v|]; simpl.
  - intros ->. destruct (dict_get k2 d1) as [v|]; simpl.
    + intros ->. by destruct (dict_get k3 d2).
    + by intros [= <-].
  - intros [= <-]. simpl. by intros [= <-].
Qed.

(** Whenever [flatten_metadata] returns, the ten unconditional columns are
    there, each with the value at its path or its default. *)
Lemma flatten_unconditional nft fl :
  flatten_metadata nft = Ok fl →
  ∀ col path dflt, (col, (path, dflt)) ∈ unconditional →
    fl !! col = Some (default dflt (lookup_path path nft)).
Proof.
  intros (d & own & c & md & roy & sup & gs & flg
          & -> & Hown & Hc & Hmd & Hroy & Hsup & Hgs & Hg & ->)%flatten_metadata_inv.
  intros col path dflt Hin. unfold unconditional in Hin.
  repeat (apply elem_of_cons in Hin as [Hin|Hin]; [injection Hin as -> -> ->|]);
    [..|by apply elem_of_nil in Hin].
  all: rewrite (flatten_lookup_fixed _ _ _ _ _ _ _ _ Hg) by key_neq.
  all: unfold fixed_fields; repeat (rewrite lookup_insert_ne by key_neq);
    rewrite lookup_insert_eq; f_equal; symmetry.
  - apply default_lookup_path_1.
  - by apply default_lookup_path_2.
  - by apply default_lookup_path_2.
  - by apply default_lookup_path_2.
  - by eapply default_lookup_path_3.
  - by eapply default_lookup_path_3.
  - by eapply default_lookup_path_3.
  - by eapply default_lookup_path_3.
  - by eapply default_lookup_path_3.
  - by eapply default_lookup_path_3.
Qed.

Lemma dict_or_absent_default k d :
  dict_or_absent k d → ∃ d', default (JDict []) (dict_get k d) = JDict d'.
Proof.
  unfold dict_or_absent. destruct (dict_get k d) as [[]|]; simpl; try done; eauto.
Qed.

Lemma flat_shaped_returns nft : flat_shaped nft → returns (flatten_metadata nft).
Proof.
  intros [Hn Hf]. destruct nft as [| | | | | |d]; try done.
  destruct Hf as (Hown & Hroy & Hsup & Hgr).
  apply dict_or_absent_default in Hown as [own Hown], Hroy as [roy Hroy], Hsup as [sup Hsup].
  assert (∃ c md, default (JDict []) (dict_get (u "content") d) = JDict c ∧
                  default (JDict []) (dict_get (u "metadata") c) = JDict md)
    as (c & md & Hc & Hmd).
  { unfold name_shaped in Hn.
    destruct (dict_get (u "content") d) as [[]|] eqn:E; try done.
    - apply dict_or_absent_default in Hn as [md Hmd]. eauto.
    - by exists [], []. }
  assert (∃ gs, py_iter (default (JList []) (dict_get (u "grouping") d)) = Ok gs ∧
                Forall is_dict gs) as (gs & Hgs & Hdicts).
  { destruct (dict_get (u "grouping") d) as [[]|]; try done; simpl; eauto. }
  destruct (grouping_loop_returns gs (expand_attributes md (fixed_fields d own md)) Hdicts)
    as [flg Hg].
  eexists. apply flatten_metadata_inv.
  by exists d, own, c, md, roy, sup, gs, flg.
Qed.

(** (C1, as the code has it) On a record in which [ownership], [content],
    [content.metadata], [royalty] and [supply] are mappings when present
    and [grouping], when present, is a list of mappings,
    [flatten_metadata] returns, and the row has the ten unconditional
    columns, each holding the value at its path or the documented default
    when the path is missing. *)
Theorem flatten_metadata_unconditional (nft : json) :
  flat_shaped nft →
  ∃ fl, flatten_metadata nft = Ok fl ∧
        ∀ col path dflt, (col, (path, dflt)) ∈ unconditional →
          fl !! col = Some (default dflt (lookup_path path nft)).
Proof.
  intros [fl Hfl]%flat_shaped_returns. exists fl. split; [done|].
  by apply flatten_unconditional.
Qed.

(** *** Attribute entries without a trait type *)

Lemma digits_plain d : Forall (λ c, plain c = true) (digits d).
Proof. induction d; simpl; by constructor. Qed.

Lemma attribute_name_plain i : Forall (λ c, plain c = true) (attribute_name i).
Proof.
  unfold attribute_name. apply Forall_app. split.
  - by repeat constructor.
  - unfold str_int. destruct (Z.of_nat i) eqn:E; simpl.
    + by repeat constructor.
    + apply digits_plain.
    + lia.
Qed.

Lemma trait_column_untyped i e :
  dict_get (u "trait_type") e = None →
  trait_column i (JDict e) = Some (u "trait_" ++ attribute_name i).
Proof.
  intros He. unfold trait_column. rewrite He. simpl.
  by rewrite sanitize_plain by apply attribute_name_plain.
Qed.

Lemma grouping_loop_is_Some gs fl fl' k :
  grouping_loop gs fl = Ok fl' → is_Some (fl !! k) → is_Some (fl' !! k).
Proof.
  revert fl'. induction gs as [|g gs IH]; intros fl'; cbn [grouping_loop].
  { by intros [= <-]. }
  destruct (py_get g (u "group_key") JNone) as [key|]; cbn [mbind result_bind]; [|done].
  destruct (eq_str key (u "collection")); [|by apply IH].
  destruct (py_get g (u "group_value") (JStr [])) as [value|]; cbn [mbind result_bind]; [|done].
  intros [= <-] Hk. rewrite lookup_insert. by case_decide.
Qed.

Lemma fixed_fields_no_attribute d own md x :
  fixed_fields d own md !! (u "attribute_" ++ x) = None.
Proof. unfold fixed_fields. by rewrite !lookup_insert_ne by key_neq. Qed.

(** (C2, as the code has it) The column of an attribute entry without
    [trait_type] at index [i] is [trait_attribute_<i>]; no column is
    named [attribute_<i>].  The column holds the entry's [value] ([''] when
    it has none) unless a later entry writes the same column. *)
Theorem attribute_without_trait_type (d c md : list (pstr * json))
    (attrs1 attrs2 : list json) (e : list (pstr * json)) (fl : row) :
  flatten_metadata (JDict d) = Ok fl →
  dict_get (u "content") d = Some (JDict c) →
  dict_get (u "metadata") c = Some (JDict md) →
  dict_get (u "attributes") md = Some (JList (attrs1 ++ JDict e :: attrs2)) →
  dict_get (u "trait_type") e = None →
  fl !! attribute_name (length attrs1) = None ∧
  is_Some (fl !! (u "trait_" ++ attribute_name (length attrs1))) ∧
  ((∀ j a, attrs2 !! j = Some a →
           trait_column (length attrs1 + 1 + j) a
           ≠ Some (u "trait_" ++ attribute_name (length attrs1))) →
   fl !! (u "trait_" ++ attribute_name (length attrs1))
   = Some (default (JStr []) (dict_get (u "value") e))).
Proof.
  intros (d' & own & c' & md' & roy & sup & gs & flg
          & [= <-] & Hown & Hc & Hmd & Hroy & Hsup & Hgs & Hg & ->)%flatten_metadata_inv
         Hdc Hcm Hattrs He.
  rewrite Hdc in Hc. injection Hc as <-. rewrite Hcm in Hmd. injection Hmd as <-.
  unfold expand_attributes in Hg. rewrite Hattrs in Hg.
  cbn [default from_option id] in Hg.
  rewrite attributes_loop_app in Hg. cbn [attributes_loop] in Hg.
  change (0 + length attrs1) with (length attrs1) in Hg.
  pose proof (trait_column_untyped (length attrs1) e He) as Hcol.
  set (K := u "trait_" ++ attribute_name (length attrs1)) in *.
  set (fl1 := attributes_loop 0 attrs1 (fixed_fields d own md)) in *.
  assert (attribute_step fl1 (length attrs1) (JDict e)
          = <[K := default (JStr []) (dict_get (u "value") e)]> fl1) as Hstep.
  { by rewrite attribute_step_column, Hcol. }
  rewrite Hstep in Hg.
  assert (∀ x, K ≠ u "metadata_" ++ x) as HKm by (unfold K; generalize (attribute_name (length attrs1)); key_neq).
  split_and!.
  - unfold attribute_name. generalize (str_int (Z.of_nat (length attrs1))). intros x.
    rewrite residual_loop_not_metadata, tail_fields_other by key_neq.
    rewrite (grouping_loop_other _ _ _ _ Hg) by key_neq.
    rewrite attributes_loop_not_trait by key_neq.
    rewrite lookup_insert_ne by (unfold K; generalize (attribute_name (length attrs1)); key_neq).
    unfold fl1. rewrite attributes_loop_not_trait by key_neq.
    apply fixed_fields_no_attribute.
  - apply residual_loop_is_Some, tail_fields_is_Some.
    eapply grouping_loop_is_Some; [done|].
    apply attributes_loop_is_Some. by rewrite lookup_insert_eq.
  - intros Hlater.
    rewrite residual_loop_not_metadata by done.
    rewrite tail_fields_other by (unfold K; generalize (attribute_name (length attrs1)); key_neq).
    rewrite (grouping_loop_other _ _ _ _ Hg)
      by (unfold K; generalize (attribute_name (length attrs1)); key_neq).
    rewrite attributes_loop_other.
    + by rewrite lookup_insert_eq.
    + intros j a Hj. replace (S (length attrs1) + j) with (length attrs1 + 1 + j) by lia.
      by apply Hlater.
Qed.

(** *** Residual metadata *)

Lemma residual_loop_last md1 k v md2 fl0 :
  k ∉ consumed →
  (∀ k' v', (k', v') ∈ md2 → k' ∉ consumed → sanitize k' ≠ sanitize k) →
  residual_loop (md1 ++ (k, v) :: md2) fl0 !! (u "metadata_" ++ sanitize k)
  = Some (JStr (residual_text v)).
Proof.
  intros Hk Hlater. rewrite residual_loop_app. cbn [residual_loop py_str].
  rewrite bool_decide_eq_false_2 by done.
  rewrite residual_loop_other.
  - by rewrite lookup_insert_eq.
  - intros k' v' Hin Hk' Heq. apply app_inv_head in Heq.
    by eapply Hlater.
Qed.

(** (C7, as the code has it) Every metadata key outside the seven consumed
    ones has its column [metadata_<sanitized key>].  The column holds the
    JSON text of the key's value when that is a dict or a list and its
    [str()] otherwise, unless a later key of the metadata has the same
    sanitized name and so writes the same column. *)
Theorem residual_metadata_column (d c md1 md2 : list (pstr * json))
    (k : pstr) (v : json) (fl : row) :
  flatten_metadata (JDict d) = Ok fl →
  dict_get (u "content") d = Some (JDict c) →
  dict_get (u "metadata") c = Some (JDict (md1 ++ (k, v) :: md2)) →
  k ∉ consumed →
  is_Some (fl !! (u "metadata_" ++ sanitize k)) ∧
  ((∀ k' v', (k', v') ∈ md2 → k' ∉ consumed → sanitize k' ≠ sanitize k) →
   fl !! (u "metadata_" ++ sanitize k)
   = Some (JStr (match v with
                 | JDict _ | JList _ => json_dumps v
                 | _ => py_str v
                 end))).
Proof.
  intros (d' & own & c' & md' & roy & sup & gs & flg
          & [= <-] & Hown & Hc & Hmd & Hroy & Hsup & Hgs & Hg & ->)%flatten_metadata_inv
         Hdc Hcm Hk.
  rewrite Hdc in Hc. injection Hc as <-. rewrite Hcm in Hmd. injection Hmd as <-.
  split.
  - rewrite residual_loop_app. cbn [residual_loop py_str].
    rewrite bool_decide_eq_false_2 by done.
    apply residual_loop_is_Some. by rewrite lookup_insert_eq.
  - intros Hlater. by apply residual_loop_last.
Qed.

End FlattenFacts.

(** ** The CSV text read back *)

Section CsvFacts.




















End CsvFacts.

(** ** Export *)






Section ExportFacts.
Context {rt : PyRuntime}.

Lemma flatten_all_spec (nfts : list json) (frs acc : list row) (all_fields : gset pstr) :
  Forall2 (λ nft fr, flatten_metadata nft = Ok fr) nfts frs →
  flatten_all nfts acc all_fields = Ok (acc ++ frs, all_fields ∪ ⋃ (dom <$> frs)).
Proof.
  intros H. revert acc all_fields.
  induction H as [|nft fr nfts frs Hfl _ IH]; intros acc all_fields; simpl.
  - by rewrite app_nil_r, (right_id_L ∅ (∪)).
  - rewrite Hfl. simpl. rewrite IH. by rewrite <- app_assoc, (assoc_L (∪)).
Qed.




Lemma export_to_csv_written (timestamp : pstr) (nfts : list json) (filename : option pstr)
    (w : world) (frs : list row) :
  nfts ≠ [] →
  Forall2 (λ nft fr, flatten_metadata nft = Ok fr) nfts frs →
  export_to_csv timestamp nfts filename w =
  (Ok (Some (default (u "nft_metadata_" ++ timestamp ++ u ".csv") filename)),
   World (<[default (u "nft_metadata_" ++ timestamp ++ u ".csv") filename :=
            csv_text (sorted (⋃ (dom <$> frs))) frs]> (files w))
         (warnings w)).
Proof.
  intros Hne Hfl. unfold export_to_csv. destruct nfts as [|nft nfts]; [done|].
  rewrite (flatten_all_spec _ _ _ _ Hfl). rewrite (left_id_L ∅ (∪)). simpl.
  by destruct filename.
Qed.





(** (C10) For the empty input [export_to_csv] returns [None], shows the
    warning, and leaves the files as they are; a path comes back only for
    a non-empty input, and then the file is there. *)
Theorem export_to_csv_empty (timestamp : pstr) (filename : option pstr) (w : world) :
  export_to_csv timestamp [] filename w
  = (Ok None, World (files w) (warnings w ++ [u "No NFTs to export"])) ∧
  ∀ nfts path w', export_to_csv timestamp nfts filename w = (Ok (Some path), w') →
    nfts ≠ [] ∧ is_Some (files w' !! path).
Proof.
  split; [done|]. intros [|nft nfts] path w'; [done|]. unfold export_to_csv.
  destruct (flatten_all _ _ _) as [[rows all]|]; [|done].
  intros [= <- <-]. split; [done|]. simpl. by rewrite lookup_insert_eq.
Qed.

End ExportFacts.

(** * Further properties *)

(** ** Sanitization: what a sanitized name looks like *)

Section SanitizeShape.
Context {rt : PyRuntime}.

Lemma strip_length s : length (strip s) ≤ length s.
Proof.
  unfold strip.
  pose proof (prefix_length _ _ (rstrip_prefix (lstrip s))).
  pose proof (suffix_length _ _ (lstrip_suffix s)). lia.
Qed.

Lemma replace_char_length old new s : length (replace_char old new s) = length s.
Proof. unfold replace_char. by rewrite length_map. Qed.

Lemma re_sub_disallowed_length s : length (re_sub_disallowed s) ≤ length s.
Proof. unfold re_sub_disallowed. apply List.filter_length_le. Qed.

Lemma lstrip_nil s : lstrip s = [] ↔ Forall (λ c, is_space c = true) s.
Proof.
  induction s as [|c s IH]; simpl; [done|].
  destruct (is_space c) eqn:Hc.
  - rewrite IH. split; [by constructor | by inversion 1].
  - split; [done|]. inversion 1; congruence.
Qed.

Lemma rstrip_nil s : rstrip s = [] ↔ Forall (λ c, is_space c = true) s.
Proof.
  induction s as [|c s IH]; simpl; [done|].
  destruct (rstrip s) as [|d r] eqn:Hr.
  - destruct (is_space c) eqn:Hc.
    + split; [|done]. intros _. constructor; [done | by apply IH].
    + split; [done|]. inversion 1; congruence.
  - split; [done|]. inversion 1 as [|?? _ Hs]. by apply IH in Hs.
Qed.

Lemma strip_nil s : strip s = [] ↔ Forall (λ c, is_space c = true) s.
Proof.
  unfold strip. rewrite rstrip_nil. split.
  - intros H. induction s as [|c s IH]; [done|]. simpl in H.
    destruct (is_space c) eqn:Hc; [constructor; auto | done].
  - intros H. induction H as [|c s Hc _ IH]; [done|]. simpl. by rewrite Hc.
Qed.

(** (X1) A sanitized name holds only characters the pattern keeps and no
    space; it neither starts nor ends with white space; it is no longer
    than the text it comes from; and it holds neither a comma nor a
    quotation mark. *)
Theorem sanitize_output (s : pstr) :
  Forall (λ c, keeps c = true ∧ c ≠ chr " ") (sanitize s) ∧
  trimmed (sanitize s) ∧
  length (sanitize s) ≤ length s ∧
  (chr "," ∉ sanitize s) ∧ (dquote ∉ sanitize s).
Proof.
  pose proof (sanitize_chars s) as Hchars.
  split_and!; [done | apply sanitize_trimmed | | |].
  - unfold sanitize. rewrite replace_char_length.
    pose proof (strip_length (re_sub_disallowed s)).
    pose proof (re_sub_disallowed_length s). lia.
  - intros Hin. rewrite Forall_forall in Hchars. by destruct (Hchars _ Hin) as [Hk _].
  - intros Hin. rewrite Forall_forall in Hchars. by destruct (Hchars _ Hin) as [Hk _].
Qed.

(** (X2) The names the sanitization leaves as they are: those made of kept
    characters other than the space that neither start nor end with white
    space. *)
Theorem sanitize_fixed_points (s : pstr) :
  sanitize s = s ↔ Forall (λ c, keeps c = true ∧ c ≠ chr " ") s ∧ trimmed s.
Proof.
  split.
  - intros <-. split; [apply sanitize_chars | apply sanitize_trimmed].
  - intros [??]. by apply sanitize_fixpoint.
Qed.

(** (X3) The sanitized name is empty exactly when the pattern deletes every
    character of the text that is not white space. *)
Theorem sanitize_empty_iff (s : pstr) :
  sanitize s = [] ↔ Forall (λ c, keeps c = false ∨ is_space c = true) s.
Proof.
  unfold sanitize, replace_char.
  rewrite <- (length_zero_iff_nil (List.map _ _)), length_map, length_zero_iff_nil, strip_nil.
  unfold re_sub_disallowed. induction s as [|c s IH]; simpl; [done|].
  destruct (keeps c) eqn:Hk.
  - split.
    + inversion 1 as [|?? Hc Hs]. constructor; [by right | by apply IH].
    + inversion 1 as [|?? [Hc|Hc] Hs]; [congruence|]. constructor; [done | by apply IH].
  - rewrite IH. split; [intros ?; constructor; auto | by inversion 1].
Qed.

End SanitizeShape.

(** ** The year filter: failures, repetition, concatenation, the two files *)

Section FilterMore.
Context {rt : PyRuntime}.

Lemma result_bind_Ok {A} (m : result A) : m ≫= Ok = m.
Proof. by destruct m. Qed.

Lemma rpc_display_name_raises nft e : Rpc.display_name nft = Raise e → e = AttributeError.
Proof.
  unfold Rpc.display_name. intros H.
  destruct nft as [| | | | | |d]; run_in H; try congruence.
  destruct (default (JDict []) (dict_get (u "content") d)) as [| | | | | |c];
    run_in H; try congruence.
  destruct (default (JDict []) (dict_get (u "metadata") c)) as [| | | | | |m];
    run_in H; try congruence.
  destruct (truthy _); [done|]. run_in H.
  destruct (truthy _); done.
Qed.

Lemma rest_display_name_raises nft e :
  Rest.display_name nft = Raise e → e = AttributeError ∨ e = TypeError.
Proof.
  unfold Rest.display_name. intros H.
  assert (∀ e', Raise (A:=json) e' = Raise e → e' = AttributeError ∨ e' = TypeError →
                e = AttributeError ∨ e = TypeError) as Hcl by (by intros ? [= ->]).
  destruct nft as [| | | | s|l|d]; run_in H; try (eapply Hcl; [exact H | auto]).
  - destruct (is_substring _ s); outcome_in H; (eapply Hcl; [exact H | auto]).
  - destruct (existsb _ l); outcome_in H; (eapply Hcl; [exact H | auto]).
  - destruct (dict_get (u "content") d) as [content|] eqn:Hc.
    2:{ rewrite bool_decide_eq_false_2 in H by (by intros [??]). by outcome_in H. }
    rewrite bool_decide_eq_true_2 in H by eauto. run_in H.
    destruct content as [| | | | s|l|c]; run_in H; try (eapply Hcl; [exact H | auto]).
    + destruct (is_substring _ s); outcome_in H; (eapply Hcl; [exact H | auto]).
    + destruct (existsb _ l); outcome_in H; (eapply Hcl; [exact H | auto]).
    + destruct (dict_get (u "metadata") c) as [metadata|] eqn:Hm.
      2:{ rewrite bool_decide_eq_false_2 in H by (by intros [??]). by outcome_in H. }
      rewrite bool_decide_eq_true_2 in H by eauto. run_in H.
      destruct metadata as [| | | | | |m]; run_in H; try (eapply Hcl; [exact H | auto]).
      by outcome_in H.
Qed.

(** The loop of either file. *)
Section Loop.
Variable display_name : json → result json.
Variable loop : list json → result (list json).
Hypothesis loop_cons : ∀ nft rest, loop (nft :: rest) =
  name ← display_name nft; filtered ← loop rest;
  Ok (if truthy name && year_pattern_match (py_str name) then nft :: filtered else filtered).
Hypothesis loop_nil : loop [] = Ok [].

Lemma filter_loop_returns_iff nfts :
  returns (loop nfts) ↔ Forall (λ nft, returns (display_name nft)) nfts.
Proof using loop_cons loop_nil.
  induction nfts as [|nft rest IH].
  { rewrite loop_nil. split; [done | by eexists]. }
  rewrite loop_cons, Forall_cons, <- IH.
  destruct (display_name nft) as [name|e]; cbn [mbind result_bind].
  - destruct (loop rest) as [filtered|e]; cbn [mbind result_bind].
    + split; [intros _; split; by eexists | intros _; by eexists].
    + split; [by intros [??] | by intros [_ [??]]].
  - split; [by intros [??] | by intros [[??] _]].
Qed.

Lemma filter_loop_raises (P : exn → Prop) nfts e :
  (∀ nft e, display_name nft = Raise e → P e) → loop nfts = Raise e → P e.
Proof using loop_cons loop_nil.
  intros HP. induction nfts as [|nft rest IH].
  { by rewrite loop_nil. }
  rewrite loop_cons.
  destruct (display_name nft) as [name|e'] eqn:Hn; cbn [mbind result_bind].
  - destruct (loop rest) as [filtered|e']; cbn [mbind result_bind]; [done|].
    intros [= ->]. by apply IH.
  - intros [= ->]. by eapply HP.
Qed.

Lemma filter_loop_app nfts1 nfts2 :
  loop (nfts1 ++ nfts2) = out1 ← loop nfts1; out2 ← loop nfts2; Ok (out1 ++ out2).
Proof using loop_cons loop_nil.
  induction nfts1 as [|nft rest IH].
  { rewrite loop_nil. cbn [mbind result_bind app]. by destruct (loop nfts2). }
  rewrite <- app_comm_cons, !loop_cons, IH.
  destruct (display_name nft) as [name|e]; cbn [mbind result_bind]; [|done].
  destruct (loop rest) as [out1|e]; cbn [mbind result_bind]; [|done].
  destruct (loop nfts2) as [out2|e]; cbn [mbind result_bind]; [|done].
  by destruct (truthy name && year_pattern_match (py_str name)).
Qed.

Lemma filter_loop_idempotent nfts out : loop nfts = Ok out → loop out = Ok out.
Proof using loop_cons loop_nil.
  revert out. induction nfts as [|nft rest IH]; intros out.
  { rewrite loop_nil. by intros [= <-]. }
  rewrite loop_cons.
  destruct (display_name nft) as [name|e] eqn:Hn; cbn [mbind result_bind]; [|done].
  destruct (loop rest) as [filtered|e]; cbn [mbind result_bind]; [|done].
  specialize (IH filtered eq_refl).
  destruct (truthy name && year_pattern_match (py_str name)) eqn:Hm; intros [= <-]; [|done].
  rewrite loop_cons, Hn, IH. cbn [mbind result_bind]. by rewrite Hm.
Qed.

End Loop.

Lemma display_name_returns_iff nft :
  (returns (Rpc.display_name nft) ↔ name_shaped nft) ∧
  (returns (Rest.display_name nft) ↔ name_shaped nft).
Proof.
  split; split.
  - intros [n Hn]. by eapply rpc_display_name_returns.
  - intros Hs. destruct (rpc_display_name_shaped nft Hs) as (n & Hn & _). by eexists.
  - intros [n Hn]. by eapply rest_display_name_returns.
  - intros Hs. destruct (rest_display_name_shaped nft Hs) as (n & Hn & _). by eexists.
Qed.

Lemma filter_returns_shaped nfts :
  (returns (Rpc.filter_nfts_by_year nfts) ↔ Forall name_shaped nfts) ∧
  (returns (Rest.filter_nfts_by_year nfts) ↔ Forall name_shaped nfts).
Proof.
  split.
  - rewrite (filter_loop_returns_iff Rpc.display_name) by done.
    apply Forall_proper; [|done]. intros nft. apply display_name_returns_iff.
  - rewrite (filter_loop_returns_iff Rest.display_name) by done.
    apply Forall_proper; [|done]. intros nft. apply display_name_returns_iff.
Qed.

(** (X4) In both files the filter returns exactly when [content] and
    [content.metadata] are mappings or missing in every record of the
    list: one record of another shape makes the whole call raise, whatever
    the other records are.  main.py then raises [AttributeError],
    nft_extractor.py [AttributeError] or [TypeError]. *)
Theorem filter_nfts_by_year_returns_iff (nfts : list json) :
  (returns (Rpc.filter_nfts_by_year nfts) ↔ Forall name_shaped nfts) ∧
  (returns (Rest.filter_nfts_by_year nfts) ↔ Forall name_shaped nfts) ∧
  (∀ e, Rpc.filter_nfts_by_year nfts = Raise e → e = AttributeError) ∧
  (∀ e, Rest.filter_nfts_by_year nfts = Raise e → e = AttributeError ∨ e = TypeError).
Proof.
  split_and!; [apply filter_returns_shaped.. | |].
  - intros e.
    apply (filter_loop_raises Rpc.display_name) with (P := λ e, e = AttributeError);
      [done.. | apply rpc_display_name_raises].
  - intros e.
    apply (filter_loop_raises Rest.display_name)
      with (P := λ e, e = AttributeError ∨ e = TypeError);
      [done.. | apply rest_display_name_raises].
Qed.

(** (X5) Filtering what the filter has returned changes nothing. *)
Theorem filter_nfts_by_year_idempotent (nfts out : list json) :
  (Rpc.filter_nfts_by_year nfts = Ok out → Rpc.filter_nfts_by_year out = Ok out) ∧
  (Rest.filter_nfts_by_year nfts = Ok out → Rest.filter_nfts_by_year out = Ok out).
Proof.
  split.
  - by apply (filter_loop_idempotent Rpc.display_name).
  - by apply (filter_loop_idempotent Rest.display_name).
Qed.

(** (X6) The filter works record by record: filtering a concatenation is
    filtering the two lists one after the other, the exception being that
    of the first record that has one. *)
Theorem filter_nfts_by_year_app (nfts1 nfts2 : list json) :
  Rpc.filter_nfts_by_year (nfts1 ++ nfts2)
  = (out1 ← Rpc.filter_nfts_by_year nfts1; out2 ← Rpc.filter_nfts_by_year nfts2;
     Ok (out1 ++ out2)) ∧
  Rest.filter_nfts_by_year (nfts1 ++ nfts2)
  = (out1 ← Rest.filter_nfts_by_year nfts1; out2 ← Rest.filter_nfts_by_year nfts2;
     Ok (out1 ++ out2)).
Proof.
  split.
  - by apply (filter_loop_app Rpc.display_name).
  - by apply (filter_loop_app Rest.display_name).
Qed.

Lemma display_names_agree nft :
  name_shaped nft → title_idle nft = true → Rpc.display_name nft = Rest.display_name nft.
Proof.
  unfold name_shaped, dict_or_absent, title_idle, Rpc.display_name, Rest.display_name.
  intros Hs Ht. destruct nft as [| | | | | |d]; try done.
  py_cases.
Qed.

Lemma filters_agree_shaped nfts :
  Forall name_shaped nfts → Forall (λ nft, title_idle nft = true) nfts →
  Rpc.filter_nfts_by_year nfts = Rest.filter_nfts_by_year nfts.
Proof.
  induction 1 as [|nft rest Hs _ IH]; [done|]. inversion 1 as [|?? Ht Hrest]; subst.
  simpl. rewrite (display_names_agree nft Hs Ht), (IH Hrest). done.
Qed.

(** (X7) The two files differ by the title only: on records that give no
    reason to fall back on it, what one file's filter returns the other's
    returns too. *)
Theorem filter_nfts_by_year_variants (nfts : list json) :
  Forall (λ nft, title_idle nft = true) nfts →
  ∀ out, Rpc.filter_nfts_by_year nfts = Ok out ↔ Rest.filter_nfts_by_year nfts = Ok out.
Proof.
  intros Ht out.
  pose proof (filter_returns_shaped nfts) as [Hrpc Hrest].
  split; intros Hout.
  - rewrite <- filters_agree_shaped; [done | | done]. apply Hrpc. by eexists.
  - rewrite filters_agree_shaped; [done | | done]. apply Hrest. by eexists.
Qed.

End FilterMore.

(** ** Flattening: the stages, the columns and the failures *)

Section FlattenMore.
Context {rt : PyRuntime}.

(** [flatten_metadata] by its stages, in the order in which they can
    raise. *)
Lemma flatten_metadata_stages d :
  flatten_metadata (JDict d) =
  own ← as_dict (default (JDict []) (dict_get (u "ownership") d));
  c ← as_dict (default (JDict []) (dict_get (u "content") d));
  md ← as_dict (default (JDict []) (dict_get (u "metadata") c));
  gs ← py_iter (default (JList []) (dict_get (u "grouping") d));
  flg ← grouping_loop gs (expand_attributes md (fixed_fields d own md));
  roy ← as_dict (default (JDict []) (dict_get (u "royalty") d));
  sup ← as_dict (default (JDict []) (dict_get (u "supply") d));
  Ok (residual_loop md (tail_fields roy sup flg)).
Proof.
  unfold flatten_metadata. cbn [py_get mbind result_bind].
  destruct (default (JDict []) (dict_get (u "ownership") d)) as [| | | | | |own]; try done.
  cbn [as_dict py_get mbind result_bind].
  destruct (default (JDict []) (dict_get (u "content") d)) as [| | | | | |c]; try done.
  cbn [as_dict py_get mbind result_bind].
  destruct (default (JDict []) (dict_get (u "metadata") c)) as [| | | | | |md]; try done.
  cbn [as_dict py_get mbind result_bind].
  destruct (py_iter (default (JList []) (dict_get (u "grouping") d))) as [gs|]; [|done].
  cbn [py_get mbind result_bind].
  fold (fixed_fields d own md). fold (expand_attributes md (fixed_fields d own md)).
  destruct (grouping_loop gs _) as [flg|]; [|done].
  cbn [py_get mbind result_bind].
  destruct (default (JDict []) (dict_get (u "royalty") d)) as [| | | | | |roy]; try done.
  cbn [as_dict py_get mbind result_bind].
  destruct (default (JDict []) (dict_get (u "supply") d)) as [| | | | | |sup]; try done.
Qed.

(** *** The royalty and supply columns *)

(** (X8) Whenever [flatten_metadata] returns, the two royalty columns and the
    three supply columns are there, each with the value at its path or,
    when the record has none, 0, [False] or the empty string. *)
Theorem flatten_royalty_supply (nft : json) (fl : row) :
  flatten_metadata nft = Ok fl →
  ∀ col path dflt, (col, (path, dflt)) ∈ royalty_supply →
    fl !! col = Some (default dflt (lookup_path path nft)).
Proof.
  intros (d & own & c & md & roy & sup & gs & flg
          & -> & Hown & Hc & Hmd & Hroy & Hsup & Hgs & Hg & ->)%flatten_metadata_inv.
  intros col path dflt Hin. unfold royalty_supply in Hin.
  repeat (apply elem_of_cons in Hin as [Hin|Hin]; [injection Hin as -> -> ->|]);
    [..|by apply elem_of_nil in Hin].
  all: rewrite residual_loop_not_metadata by key_neq.
  all: unfold tail_fields; repeat (rewrite lookup_insert_ne by key_neq);
    rewrite lookup_insert_eq; f_equal; symmetry.
  all: by apply default_lookup_path_2.
Qed.

(** *** Where a column comes from *)

Lemma residual_loop_inv md fl k v :
  residual_loop md fl !! k = Some v →
  fl !! k = Some v ∨
  ∃ key value, (key, value) ∈ md ∧ (key ∉ consumed) ∧
               k = u "metadata_" ++ sanitize key ∧ v = JStr (residual_text value).
Proof.
  revert fl. induction md as [|[key value] md IH]; intros fl; [by left|]. simpl.
  intros [H|(key' & value' & Hin & ?)]%IH.
  - case_bool_decide as Hc; [by left|].
    apply lookup_insert_Some in H as [[<- <-]|[_ H]]; [|by left].
    right. exists key, value. split_and!; [by left | done..].
  - right. exists key', value'. split; [by right | done].
Qed.

Lemma tail_fields_inv roy sup fl k v :
  tail_fields roy sup fl !! k = Some v → fl !! k = Some v ∨ k ∈ royalty_supply.*1.
Proof.
  unfold tail_fields. intros H.
  repeat (apply lookup_insert_Some in H as [[<- _]|[_ H]];
          [right; by apply (bool_decide_unpack _)|]).
  by left.
Qed.

Lemma grouping_loop_inv gs fl fl' k v :
  grouping_loop gs fl = Ok fl' → fl' !! k = Some v →
  fl !! k = Some v ∨ k = u "collection_address".
Proof.
  intros Hg Hk. destruct (decide (k = u "collection_address")) as [->|Hne]; [by right|].
  left. by rewrite <- (grouping_loop_other _ _ _ _ Hg).
Qed.

Lemma attributes_loop_inv l i fl k v :
  attributes_loop i l fl !! k = Some v →
  fl !! k = Some v ∨ ∃ j a, l !! j = Some a ∧ trait_column (i + j) a = Some k.
Proof.
  revert i fl. induction l as [|a l IH]; intros i fl; [by left|]. simpl.
  intros [H|(j & a' & Hj & Hcol)]%IH.
  - rewrite attribute_step_column in H.
    destruct (trait_column i a) as [k'|] eqn:Hcol; [|by left].
    destruct a as [| | | | | |e]; try by left.
    apply lookup_insert_Some in H as [[<- _]|[_ H]]; [|by left].
    right. exists 0, (JDict e). by rewrite Nat.add_0_r.
  - right. exists (S j), a'. by rewrite Nat.add_succ_r.
Qed.

Lemma fixed_fields_inv d own md k v :
  fixed_fields d own md !! k = Some v → k ∈ unconditional.*1.
Proof.
  unfold fixed_fields. intros H.
  repeat (apply lookup_insert_Some in H as [[<- _]|[_ H]];
          [by apply (bool_decide_unpack _)|]).
  done.
Qed.

(** (X9) Every column of a flattened row is one of the fifteen fixed ones, or
    [collection_address], or has a name that starts with [trait_] or with
    [metadata_]; and a column whose name starts with [metadata_] holds a
    string. *)
Theorem flatten_metadata_columns (nft : json) (fl : row) (k : pstr) (v : json) :
  flatten_metadata nft = Ok fl → fl !! k = Some v →
  k ∈ fixed_columns ∨ k = u "collection_address" ∨
  (∃ x, k = u "trait_" ++ x) ∨
  (∃ x s, k = u "metadata_" ++ x ∧ v = JStr s).
Proof.
  intros (d & own & c & md & roy & sup & gs & flg
          & -> & Hown & Hc & Hmd & Hroy & Hsup & Hgs & Hg & ->)%flatten_metadata_inv.
  intros [H|(key & value & _ & _ & -> & ->)]%residual_loop_inv; [|by eauto 8].
  apply tail_fields_inv in H as [H|H];
    [|left; unfold fixed_columns; apply elem_of_app; by right].
  apply (grouping_loop_inv _ _ _ _ _ Hg) in H as [H|H]; [|by auto].
  unfold expand_attributes in H.
  assert (fixed_fields d own md !! k = Some v ∨ ∃ x, k = u "trait_" ++ x) as [Hf|Ht].
  { destruct (default (JList []) (dict_get (u "attributes") md)); auto.
    apply attributes_loop_inv in H as [H|(j & a & _ & Hcol)]; [by left|].
    right. by eapply trait_column_prefix. }
  - left. unfold fixed_columns. apply elem_of_app. left. by eapply fixed_fields_inv.
  - auto.
Qed.

(** *** The attribute columns *)

Lemma attributes_loop_is_Some_iff l i fl k :
  is_Some (attributes_loop i l fl !! k) ↔
  is_Some (fl !! k) ∨ ∃ j a, l !! j = Some a ∧ trait_column (i + j) a = Some k.
Proof.
  split.
  - intros [v Hv]. apply attributes_loop_inv in Hv as [Hv|Hv]; [left; by eexists | by right].
  - intros [Hk|(j & a & Hj & Hcol)]; [by apply attributes_loop_is_Some|].
    apply list_elem_of_split_length in Hj as (l1 & l2 & -> & ->).
    rewrite attributes_loop_app. cbn [attributes_loop].
    apply attributes_loop_is_Some. rewrite attribute_step_column, Hcol.
    destruct a; try done. by rewrite lookup_insert_eq.
Qed.

Lemma fixed_fields_no_trait d own md x : fixed_fields d own md !! (u "trait_" ++ x) = None.
Proof. unfold fixed_fields. by rewrite !lookup_insert_ne by key_neq. Qed.

Lemma flatten_lookup_trait d own md roy sup gs flg x :
  grouping_loop gs (expand_attributes md (fixed_fields d own md)) = Ok flg →
  residual_loop md (tail_fields roy sup flg) !! (u "trait_" ++ x)
  = expand_attributes md (fixed_fields d own md) !! (u "trait_" ++ x).
Proof.
  intros Hg. rewrite residual_loop_not_metadata, tail_fields_other by key_neq.
  by rewrite (grouping_loop_other _ _ _ _ Hg) by key_neq.
Qed.

(** (X10) A flattened row has the column [trait_x] exactly when [attributes] is
    a list and one of its entries is a dict whose trait type ([attribute_i]
    for an entry at index [i] that has none) sanitizes to [x]: an
    [attributes] that is no list, and an entry that is no dict, write no
    column. *)
Theorem trait_column_exists (nft : json) (fl : row) (x : pstr) :
  flatten_metadata nft = Ok fl →
  is_Some (fl !! (u "trait_" ++ x)) ↔
  ∃ l i a,
    default (JList []) (lookup_path [u "content"; u "metadata"; u "attributes"] nft) = JList l ∧
    l !! i = Some a ∧ trait_column i a = Some (u "trait_" ++ x).
Proof.
  intros (d & own & c & md & roy & sup & gs & flg
          & -> & Hown & Hc & Hmd & Hroy & Hsup & Hgs & Hg & ->)%flatten_metadata_inv.
  rewrite (flatten_lookup_trait _ _ _ _ _ _ _ _ Hg).
  rewrite (default_lookup_path_3 _ _ _ _ _ _ _ Hc Hmd).
  unfold expand_attributes.
  destruct (default (JList []) (dict_get (u "attributes") md)) as [| | | | |l|] eqn:Ha.
  1-5,7: rewrite fixed_fields_no_trait; split; [by intros [??] | by intros (?&?&?&?&?)].
  rewrite attributes_loop_is_Some_iff, fixed_fields_no_trait. split.
  - intros [[??]|(j & a & Hj & Hcol)]; [done|]. by exists l, j, a.
  - intros (l' & j & a & [= <-] & Hj & Hcol). right. by exists j, a.
Qed.

(** (X11) The column of a dict entry of [attributes], with or without a trait
    type, holds the entry's [value] (the empty string when it has none),
    unless a later entry writes the same column. *)
Theorem attribute_column_value (nft : json) (fl : row) (l : list json) (i : nat)
    (e : list (pstr * json)) :
  flatten_metadata nft = Ok fl →
  lookup_path [u "content"; u "metadata"; u "attributes"] nft = Some (JList l) →
  l !! i = Some (JDict e) →
  (∀ j a, i < j → l !! j = Some a → trait_column j a ≠ trait_column i (JDict e)) →
  fl !! (u "trait_" ++ sanitize (py_str (default (JStr (u "attribute_" ++ str_int (Z.of_nat i)))
                                           (dict_get (u "trait_type") e))))
  = Some (default (JStr []) (dict_get (u "value") e)).
Proof.
  intros (d & own & c & md & roy & sup & gs & flg
          & -> & Hown & Hc & Hmd & Hroy & Hsup & Hgs & Hg & ->)%flatten_metadata_inv
         Hl Hi Hlater.
  rewrite (flatten_lookup_trait _ _ _ _ _ _ _ _ Hg).
  pose proof (default_lookup_path_3 (JList []) _ _ (u "attributes") _ _ _ Hc Hmd) as Hp.
  rewrite Hl in Hp. cbn [default from_option id] in Hp.
  unfold expand_attributes. rewrite <- Hp.
  apply list_elem_of_split_length in Hi as (l1 & l2 & -> & ->).
  rewrite attributes_loop_app. cbn [attributes_loop plus].
  rewrite attributes_loop_other.
  - cbn [attribute_step]. by rewrite lookup_insert_eq.
  - intros j a Hj Hcol. apply (Hlater (S (length l1) + j) a); [lia | |].
    + rewrite lookup_app_r by lia.
      replace (S (length l1) + j - length l1) with (S j) by lia. done.
    + by rewrite Hcol.
Qed.

(** *** The residual columns *)

Lemma residual_loop_is_Some_iff md fl k :
  is_Some (residual_loop md fl !! k) ↔
  is_Some (fl !! k) ∨
  ∃ key value, (key, value) ∈ md ∧ (key ∉ consumed) ∧ k = u "metadata_" ++ sanitize key.
Proof.
  split.
  - intros [v [Hv|(key & value & ? & ? & ? & _)]%residual_loop_inv];
      [left; by eexists | right; by exists key, value].
  - intros [Hk|(key & value & Hin & Hc & ->)]; [by apply residual_loop_is_Some|].
    apply list_elem_of_split in Hin as (md1 & md2 & ->).
    rewrite residual_loop_app. cbn [residual_loop py_str].
    rewrite bool_decide_eq_false_2 by done.
    apply residual_loop_is_Some. by rewrite lookup_insert_eq.
Qed.

Lemma flatten_no_metadata_before d own md roy sup gs flg x :
  grouping_loop gs (expand_attributes md (fixed_fields d own md)) = Ok flg →
  tail_fields roy sup flg !! (u "metadata_" ++ x) = None.
Proof.
  intros Hg. rewrite tail_fields_other by key_neq.
  rewrite (grouping_loop_other _ _ _ _ Hg) by key_neq.
  unfold expand_attributes.
  destruct (default (JList []) (dict_get (u "attributes") md));
    try rewrite attributes_loop_not_trait by key_neq;
    unfold fixed_fields; by rewrite !lookup_insert_ne by key_neq.
Qed.

(** (X12) A flattened row has the column [metadata_x] exactly when the metadata
    has a key outside the seven the fixed columns and the attributes have
    read whose sanitized name is [x]: those seven keys are not written a
    second time. *)
Theorem metadata_column_exists (nft : json) (fl : row) (x : pstr) :
  flatten_metadata nft = Ok fl →
  is_Some (fl !! (u "metadata_" ++ x)) ↔
  ∃ md key value,
    lookup_path [u "content"; u "metadata"] nft = Some (JDict md) ∧
    (key, value) ∈ md ∧ (key ∉ consumed) ∧ sanitize key = x.
Proof.
  intros (d & own & c & md & roy & sup & gs & flg
          & -> & Hown & Hc & Hmd & Hroy & Hsup & Hgs & Hg & ->)%flatten_metadata_inv.
  rewrite residual_loop_is_Some_iff, (flatten_no_metadata_before _ _ _ _ _ _ _ _ Hg).
  split.
  - intros [[??]|(key & value & Hin & Hk & Heq)]; [done|].
    apply app_inv_head in Heq as ->. exists md, key, value. split_and!; [|done..].
    cbn [lookup_path]. destruct (dict_get (u "content") d) as [v|]; simpl in Hc.
    + subst v. simpl. destruct (dict_get (u "metadata") c) as [v|]; simpl in Hmd.
      * by subst v.
      * injection Hmd as <-. by apply elem_of_nil in Hin.
    + injection Hc as <-. simpl in Hmd. injection Hmd as <-. by apply elem_of_nil in Hin.
  - intros (md' & key & value & Hp & Hin & Hk & <-). right. exists key, value.
    split_and!; [|done..].
    pose proof (default_lookup_path_2 (JDict []) _ (u "metadata") _ _ Hc) as Hd.
    rewrite Hp, Hmd in Hd. cbn [default from_option id] in Hd. by injection Hd as ->.
Qed.

(** *** The collection address *)

Lemma grouping_loop_find gs fl fl' :
  grouping_loop gs fl = Ok fl' →
  fl' = match find is_collection gs with
        | Some g => <[u "collection_address" := group_value g]> fl
        | None => fl
        end.
Proof.
  induction gs as [|g gs IH]; cbn [grouping_loop find]; [by intros [= <-]|].
  destruct g as [| | | | | |e]; try done. cbn [py_get mbind result_bind is_collection].
  destruct (eq_str _ _); [|done]. by intros [= <-].
Qed.

Lemma fixed_fields_no_collection d own md :
  expand_attributes md (fixed_fields d own md) !! u "collection_address" = None.
Proof.
  unfold expand_attributes.
  destruct (default (JList []) (dict_get (u "attributes") md));
    try rewrite attributes_loop_not_trait by key_neq;
    unfold fixed_fields; by rewrite !lookup_insert_ne by key_neq.
Qed.

(** (X13) The column [collection_address] holds the [group_value] (the empty
    string when there is none) of the first entry of [grouping] whose
    [group_key] is ['collection']; it is missing when [grouping] has no
    such entry or is itself missing. *)
Theorem collection_address_first (d : list (pstr * json)) (fl : row) (gs : list json) :
  flatten_metadata (JDict d) = Ok fl →
  default (JList []) (dict_get (u "grouping") d) = JList gs →
  fl !! u "collection_address" = group_value <$> find is_collection gs.
Proof.
  intros (d' & own & c & md & roy & sup & gs' & flg
          & [= <-] & Hown & Hc & Hmd & Hroy & Hsup & Hgs & Hg & ->)%flatten_metadata_inv Hgr.
  rewrite Hgr in Hgs. injection Hgs as <-.
  rewrite residual_loop_not_metadata, tail_fields_other by key_neq.
  rewrite (grouping_loop_find _ _ _ Hg).
  destruct (find is_collection gs) as [g|]; simpl.
  - by rewrite lookup_insert_eq.
  - apply fixed_fields_no_collection.
Qed.

Lemma grouping_loop_cut gs g rest fl :
  is_collection g = true →
  grouping_loop (gs ++ g :: rest) fl = grouping_loop (gs ++ [g]) fl.
Proof.
  intros Hg. induction gs as [|g' gs IH]; cbn [app grouping_loop].
  - destruct g as [| | | | | |e]; try done. cbn [py_get mbind result_bind].
    cbn [is_collection] in Hg. by rewrite Hg.
  - destruct (py_get g' (u "group_key") JNone) as [key|]; cbn [mbind result_bind]; [|done].
    by destruct (eq_str key (u "collection")).
Qed.

(** (X14) The loop over [grouping] stops at the first collection entry: what
    follows it is never looked at, so that it changes neither the row nor
    whether the call raises. *)
Theorem grouping_stops_at_collection (d1 d2 : list (pstr * json)) (gs : list json)
    (g : json) (rest1 rest2 : list json) :
  (∀ k, k ∈ [u "id"; u "ownership"; u "content"; u "royalty"; u "supply"] →
        dict_get k d1 = dict_get k d2) →
  dict_get (u "grouping") d1 = Some (JList (gs ++ g :: rest1)) →
  dict_get (u "grouping") d2 = Some (JList (gs ++ g :: rest2)) →
  is_collection g = true →
  flatten_metadata (JDict d1) = flatten_metadata (JDict d2).
Proof.
  intros Hd Hg1 Hg2 Hg. rewrite !flatten_metadata_stages, Hg1, Hg2.
  rewrite <- !(Hd (u "ownership")), <- !(Hd (u "content")),
    <- !(Hd (u "royalty")), <- !(Hd (u "supply")) by (by apply (bool_decide_unpack _)).
  destruct (as_dict (default (JDict []) (dict_get (u "ownership") d1))) as [own|];
    cbn [mbind result_bind]; [|done].
  destruct (as_dict (default (JDict []) (dict_get (u "content") d1))) as [c|];
    cbn [mbind result_bind]; [|done].
  destruct (as_dict (default (JDict []) (dict_get (u "metadata") c))) as [md|];
    cbn [mbind result_bind default from_option id py_iter]; [|done].
  rewrite (grouping_loop_cut gs g rest1), (grouping_loop_cut gs g rest2) by done.
  unfold fixed_fields. by rewrite (Hd (u "id")) by (by apply (bool_decide_unpack _)).
Qed.

(** (X15) The row depends on six top-level keys of the record only: [id],
    [ownership], [content], [grouping], [royalty] and [supply].  Two
    records that agree on them flatten alike, whatever else they hold. *)
Theorem flatten_metadata_reads (d1 d2 : list (pstr * json)) :
  (∀ k, k ∈ read_keys → dict_get k d1 = dict_get k d2) →
  flatten_metadata (JDict d1) = flatten_metadata (JDict d2).
Proof.
  intros Hd. rewrite !flatten_metadata_stages. unfold fixed_fields.
  by rewrite !(Hd (u "ownership")), !(Hd (u "content")), !(Hd (u "grouping")),
    !(Hd (u "royalty")), !(Hd (u "supply")), !(Hd (u "id"))
    by (by apply (bool_decide_unpack _)).
Qed.

(** *** The exceptions *)

Lemma as_dict_raises v e : as_dict v = Raise e → e = AttributeError.
Proof. destruct v; simpl; congruence. Qed.

Lemma grouping_loop_raises gs fl e : grouping_loop gs fl = Raise e → e = AttributeError.
Proof.
  induction gs as [|g gs IH]; cbn [grouping_loop]; [done|].
  destruct g as [| | | | | |x]; cbn [py_get mbind result_bind]; try congruence.
  by destruct (eq_str _ _).
Qed.

(** (X16) [flatten_metadata] never raises [KeyError]: a missing key is always
    defaulted.  What it raises is [AttributeError], for a value that
    should be a mapping and is not, or [TypeError], and this only for a
    [grouping] that is [None], a [bool] or a number. *)
Theorem flatten_metadata_exceptions (nft : json) (e : exn) :
  flatten_metadata nft = Raise e →
  e = AttributeError ∨
  e = TypeError ∧
  ∃ d g, nft = JDict d ∧ dict_get (u "grouping") d = Some g ∧
         match g with
         | JNone | JBool _ | JInt _ | JFloat _ => True
         | _ => False
         end.
Proof.
  destruct nft as [| | | | | |d]; try (intros [= <-]; by left).
  rewrite flatten_metadata_stages.
  destruct (as_dict (default (JDict []) (dict_get (u "ownership") d))) as [own|e'] eqn:Hown;
    cbn [mbind result_bind]; [|intros [= <-]; left; by eapply as_dict_raises].
  destruct (as_dict (default (JDict []) (dict_get (u "content") d))) as [c|e'] eqn:Hc;
    cbn [mbind result_bind]; [|intros [= <-]; left; by eapply as_dict_raises].
  destruct (as_dict (default (JDict []) (dict_get (u "metadata") c))) as [md|e'] eqn:Hmd;
    cbn [mbind result_bind]; [|intros [= <-]; left; by eapply as_dict_raises].
  destruct (py_iter (default (JList []) (dict_get (u "grouping") d))) as [gs|e'] eqn:Hgs;
    cbn [mbind result_bind].
  2:{ intros [= <-]. right.
      destruct (dict_get (u "grouping") d) as [g|] eqn:Hgr; [|done].
      destruct g; simpl in Hgs; try done; injection Hgs as <-;
        (split; [done|]); eexists _, _; by split_and!. }
  destruct (grouping_loop gs _) as [flg|e'] eqn:Hg;
    cbn [mbind result_bind]; [|intros [= <-]; left; by eapply grouping_loop_raises].
  destruct (as_dict (default (JDict []) (dict_get (u "royalty") d))) as [roy|e'] eqn:Hroy;
    cbn [mbind result_bind]; [|intros [= <-]; left; by eapply as_dict_raises].
  destruct (as_dict (default (JDict []) (dict_get (u "supply") d))) as [sup|e'] eqn:Hsup;
    cbn [mbind result_bind]; [|intros [= <-]; left; by eapply as_dict_raises].
  done.
Qed.

End FlattenMore.

(** ** The filter and the flattening together *)

Section Pipeline.
Context {rt : PyRuntime}.

Lemma first_nonempty_head (v : json) (rest : list (option json)) :
  truthy v = true → first_nonempty (Some v :: rest) = Some v.
Proof. simpl. by intros ->. Qed.

Lemma name_column_lookup nft fl v :
  flatten_metadata nft = Ok fl → fl !! u "name" = Some v → truthy v = true →
  lookup_path [u "content"; u "metadata"; u "name"] nft = Some v.
Proof.
  intros Hfl Hv Ht.
  pose proof (flatten_unconditional nft fl Hfl (u "name")
                [u "content"; u "metadata"; u "name"] (JStr [])) as H.
  rewrite Hv in H.
  destruct (lookup_path [u "content"; u "metadata"; u "name"] nft) as [x|];
    cbn [default from_option id] in H.
  - f_equal. symmetry. injection H; [done | by repeat constructor].
  - assert (v = JStr []) as -> by (injection H; [done | by repeat constructor]).
    by vm_compute in Ht.
Qed.

(** (X17) Of a record the filter has kept, the column [name] (the metadata's
    name) either is empty, the record having been kept for its title or
    for a name outside the metadata, or is the name the filter has looked
    at, and so starts with a year from 1990 to 2025. *)
Theorem kept_name_column (nfts out : list json) (nft : json) (fl : row) (v : json) :
  Rpc.filter_nfts_by_year nfts = Ok out ∨ Rest.filter_nfts_by_year nfts = Ok out →
  nft ∈ out → flatten_metadata nft = Ok fl →
  fl !! u "name" = Some v → truthy v = true →
  year_pattern_match (py_str v) = true ∧ year_in_range (py_str v).
Proof.
  intros Hout Hin Hfl Hv Ht.
  pose proof (name_column_lookup nft fl v Hfl Hv Ht) as Hp.
  destruct Hout as [Hout|Hout].
  - apply rpc_filter_sound in Hout as (_ & Hall & _).
    rewrite Forall_forall in Hall. destruct (Hall nft Hin) as (n & Hn & _ & Hy & Hr).
    apply rpc_display_name_first in Hn. unfold candidates_rpc in Hn.
    rewrite Hp, first_nonempty_head in Hn by done. by subst n.
  - apply rest_filter_sound in Hout as (_ & Hall & _).
    rewrite Forall_forall in Hall. destruct (Hall nft Hin) as (n & Hn & _ & Hy & Hr).
    apply rest_display_name_first in Hn. unfold candidates_rest in Hn.
    rewrite Hp, first_nonempty_head in Hn by done. by subst n.
Qed.

End Pipeline.

(** ** Export: the file and the failures *)

Section ExportMore.
Context {rt : PyRuntime}.

Lemma flatten_all_raises nfts1 nft nfts2 acc all_fields e :
  Forall (λ x, returns (flatten_metadata x)) nfts1 → flatten_metadata nft = Raise e →
  flatten_all (nfts1 ++ nft :: nfts2) acc all_fields = Raise e.
Proof.
  intros H He. revert acc all_fields.
  induction H as [|x nfts1 [fr Hx] _ IH]; intros acc all_fields; cbn [app flatten_all].
  - by rewrite He.
  - rewrite Hx. cbn [mbind result_bind]. apply IH.
Qed.


(** (X18) A record that does not flatten makes the export raise its exception
    before the file is opened: nothing is written, not even the rows of
    the records before it, and no warning is shown. *)
Theorem export_to_csv_aborts (timestamp : pstr) (nfts1 : list json) (nft : json)
    (nfts2 : list json) (filename : option pstr) (w : world) (e : exn) :
  Forall (λ x, returns (flatten_metadata x)) nfts1 →
  flatten_metadata nft = Raise e →
  export_to_csv timestamp (nfts1 ++ nft :: nfts2) filename w = (Raise e, w).
Proof.
  intros H He. unfold export_to_csv.
  rewrite (flatten_all_raises nfts1 nft nfts2 [] ∅ e H He).
  by destruct nfts1.
Qed.


End ExportMore.

(** ** The scripts *)

Section ScriptFacts.
Context {rt : PyRuntime} {net : Network}.

Lemma prog_bind_run {A B} (f : A → prog B) (m : prog A) (a : system) :
  (m ≫= f) a = match m a with
               | (Ok x, a') => f x a'
               | (Raise e, a') => (Raise e, a')
               end.
Proof. done. Qed.

Lemma lift_bind_run {A B} (f : A → prog B) (m : result A) (a : system) :
  (lift m ≫= f) a = match m with
                    | Ok x => f x a
                    | Raise e => (Raise e, a)
                    end.
Proof. rewrite prog_bind_run. unfold lift. by destruct m. Qed.

Lemma show_bind_run {B} (f : () → prog B) (e : element) (a : system) :
  (st_show e ≫= f) a = f () (System (sent a) (screen a ++ [e]) (disk a)).
Proof. done. Qed.

(** *** One call of each method *)

Lemma get_assets_by_owner_run self a :
  RpcApp.get_assets_by_owner self a =
  match respond (sent a ++ [RpcApp.assets_by_owner_request self]) with
  | Decoded data =>
      (result ← py_get data (u "result") (JDict []);
       items ← py_get result (u "items") (JList []);
       items ← py_iter items;
       item_ids items,
       System (sent a ++ [RpcApp.assets_by_owner_request self]) (screen a) (disk a))
  | RequestException e =>
      (Ok [],
       System (sent a ++ [RpcApp.assets_by_owner_request self])
              (screen a ++ [StError (u "Error fetching asset IDs: " ++ e)]) (disk a))
  end.
Proof.
  unfold RpcApp.get_assets_by_owner. rewrite prog_bind_run.
  unfold requests_send. by destruct (respond _).
Qed.

Lemma get_asset_by_id_run self asset_id a :
  RpcApp.get_asset_by_id self asset_id a =
  match respond (sent a ++ [RpcApp.asset_by_id_request self asset_id]) with
  | Decoded data =>
      (py_get data (u "result") (JDict []),
       System (sent a ++ [RpcApp.asset_by_id_request self asset_id]) (screen a) (disk a))
  | RequestException e =>
      (Ok (JDict []),
       System (sent a ++ [RpcApp.asset_by_id_request self asset_id])
              (screen a ++ [StError (u "Error fetching asset: " ++ e)]) (disk a))
  end.
Proof.
  unfold RpcApp.get_asset_by_id. rewrite prog_bind_run.
  unfold requests_send. by destruct (respond _).
Qed.

Lemma get_nft_assets_run self a :
  RestApp.get_nft_assets self a =
  match respond (sent a ++ [RestApp.nft_assets_request self]) with
  | Decoded data =>
      (Ok data, System (sent a ++ [RestApp.nft_assets_request self]) (screen a) (disk a))
  | RequestException e =>
      (Ok (JList []),
       System (sent a ++ [RestApp.nft_assets_request self])
              (screen a ++ [StError (u "Error fetching NFTs: " ++ e)]) (disk a))
  end.
Proof.
  unfold RestApp.get_nft_assets. rewrite prog_bind_run.
  unfold requests_send. by destruct (respond _).
Qed.

(** *** The asset ids *)

Lemma item_ids_spec items ids :
  item_ids items = Ok ids ↔
  Forall2 (λ item asset_id, ∃ e, item = JDict e ∧ dict_get (u "id") e = Some asset_id) items ids.
Proof.
  revert ids. induction items as [|item items IH]; intros ids; cbn [item_ids].
  - split; [intros [= <-]; constructor | by inversion 1].
  - split.
    + destruct item as [| | | | | |e]; try done. cbn [py_getitem].
      destruct (dict_get (u "id") e) as [x|] eqn:He; [|done]. cbn [mbind result_bind].
      destruct (item_ids items) as [ids'|]; [|done]. cbn [mbind result_bind].
      intros [= <-]. constructor; [by eexists | by apply IH].
    + inversion 1 as [|?? ids' ? (e & -> & He) Hrest]; subst. cbn [py_getitem].
      rewrite He. cbn [mbind result_bind].
      apply IH in Hrest as ->. done.
Qed.

(** (X20) When the reply to [getAssetsByOwner] is a body whose [result.items]
    is a list, [get_assets_by_owner] sends that one request, shows
    nothing, and returns the [id] of every item, in the order of the
    items, if every item is a dict with an [id]; otherwise it raises: it
    never returns the ids of a part of the items. *)
Theorem get_assets_by_owner_ids (self : extractor) (a : system) (data : json)
    (items : list json) :
  respond (sent a ++ [RpcApp.assets_by_owner_request self]) = Decoded data →
  lookup_path [u "result"; u "items"] data = Some (JList items) →
  (RpcApp.get_assets_by_owner self a).2
  = System (sent a ++ [RpcApp.assets_by_owner_request self]) (screen a) (disk a) ∧
  ∀ ids, (RpcApp.get_assets_by_owner self a).1 = Ok ids ↔
    Forall2 (λ item asset_id, ∃ e, item = JDict e ∧ dict_get (u "id") e = Some asset_id)
            items ids.
Proof.
  intros Hr Hp. rewrite get_assets_by_owner_run, Hr.
  split; [done|]. intros ids. cbn [fst].
  destruct data as [| | | | | |d]; try done. cbn [lookup_path] in Hp.
  cbn [py_get mbind result_bind].
  destruct (dict_get (u "result") d) as [[| | | | | |r]|]; try done.
  cbn [option_bind mbind] in Hp. cbn [default from_option id py_get mbind result_bind].
  destruct (dict_get (u "items") r) as [v|]; [|done].
  cbn [option_bind mbind] in Hp. injection Hp as ->.
  cbn [default from_option id py_iter mbind result_bind].
  apply item_ids_spec.
Qed.

(** *** The loop over the asset ids *)

Lemma fetch_assets_spec self ids acc a :
  disk (RpcApp.fetch_assets self ids acc a).2 = disk a ∧
  (∃ n, sent (RpcApp.fetch_assets self ids acc a).2
        = sent a ++ (RpcApp.asset_by_id_request self <$> take n ids)) ∧
  ∀ nfts, (RpcApp.fetch_assets self ids acc a).1 = Ok nfts →
    sent (RpcApp.fetch_assets self ids acc a).2
    = sent a ++ (RpcApp.asset_by_id_request self <$> ids) ∧
    ∃ kept, nfts = acc ++ kept ∧ Forall (λ x, truthy x = true) kept ∧
            length kept ≤ length ids.
Proof.
  revert acc a. induction ids as [|asset_id ids IH]; intros acc a; cbn [RpcApp.fetch_assets].
  { split_and!; [done | exists 0; by rewrite app_nil_r |].
    intros nfts [= <-]. split; [by rewrite app_nil_r|].
    exists []. by rewrite app_nil_r. }
  rewrite prog_bind_run, get_asset_by_id_run.
  set (r := RpcApp.asset_by_id_request self asset_id).
  assert (∀ asset a1, disk a1 = disk a → sent a1 = sent a ++ [r] →
    let acc' := if truthy asset then acc ++ [asset] else acc in
    disk (RpcApp.fetch_assets self ids acc' a1).2 = disk a ∧
    (∃ n, sent (RpcApp.fetch_assets self ids acc' a1).2
          = sent a ++ (RpcApp.asset_by_id_request self <$> take n (asset_id :: ids))) ∧
    ∀ nfts, (RpcApp.fetch_assets self ids acc' a1).1 = Ok nfts →
      sent (RpcApp.fetch_assets self ids acc' a1).2
      = sent a ++ (RpcApp.asset_by_id_request self <$> asset_id :: ids) ∧
      ∃ kept, nfts = acc ++ kept ∧ Forall (λ x, truthy x = true) kept ∧
              length kept ≤ length (asset_id :: ids)) as Hstep.
  { intros asset a1 Hd Hs acc'.
    destruct (IH acc' a1) as (Hdisk & [n Hn] & Hok).
    split_and!.
    - by rewrite Hdisk.
    - exists (S n). rewrite Hn, Hs, <- app_assoc. done.
    - intros nfts Hnfts. destruct (Hok nfts Hnfts) as (Hsent & kept & -> & Hkept & Hlen).
      split; [by rewrite Hsent, Hs, <- app_assoc|].
      unfold acc'. destruct (truthy asset) eqn:Ht.
      + exists (asset :: kept). rewrite <- app_assoc.
        split_and!; [done | by constructor | simpl; lia].
      + exists kept. split_and!; [done | done | simpl; lia]. }
  destruct (respond (sent a ++ [r])) as [e|data].
  - apply (Hstep (JDict [])); done.
  - destruct (py_get data (u "result") (JDict [])) as [asset|e].
    + apply (Hstep asset); done.
    + cbn [fst snd]. split_and!; [done | by exists 1 | done].
Qed.

(** (X21) As long as every reply is a request failure or a JSON object, the
    loop over the asset ids requests every id, in order, and does not
    raise: an asset whose request fails, or whose reply has no [result] or
    an empty one, is left out and the loop goes on.  The assets it returns
    are non-empty, and the disk is as it was. *)
Theorem fetch_assets_skips_failures (self : extractor) (asset_ids all_nfts : list json)
    (a : system) :
  (∀ history, match respond history with
              | RequestException _ | Decoded (JDict _) => True
              | _ => False
              end) →
  ∃ nfts a',
    RpcApp.fetch_assets self asset_ids all_nfts a = (Ok nfts, a') ∧
    sent a' = sent a ++ (RpcApp.asset_by_id_request self <$> asset_ids) ∧
    disk a' = disk a ∧
    ∃ kept, nfts = all_nfts ++ kept ∧ Forall (λ x, truthy x = true) kept ∧
            length kept ≤ length asset_ids.
Proof.
  intros Hnet.
  assert (∃ nfts, (RpcApp.fetch_assets self asset_ids all_nfts a).1 = Ok nfts) as [nfts Hnfts].
  { revert all_nfts a.
    induction asset_ids as [|asset_id ids IH]; intros acc a; cbn [RpcApp.fetch_assets].
    { by eexists. }
    rewrite prog_bind_run, get_asset_by_id_run.
    specialize (Hnet (sent a ++ [RpcApp.asset_by_id_request self asset_id])).
    destruct (respond _) as [e|[| | | | | |d]]; try done; apply IH. }
  destruct (fetch_assets_spec self asset_ids all_nfts a) as (Hdisk & _ & Hok).
  destruct (Hok nfts Hnfts) as (Hsent & Hkept).
  exists nfts, (RpcApp.fetch_assets self asset_ids all_nfts a).2.
  split_and!; [|done..].
  rewrite <- Hnfts. by destruct (RpcApp.fetch_assets _ _ _ _).
Qed.

(** *** What the script does with the filtered list *)

Lemma default_name_truthy (timestamp : pstr) :
  truthy (JStr (u "nft_metadata_" ++ timestamp ++ u ".csv")) = true.
Proof.
  cbn [truthy]. rewrite bool_decide_eq_false_2; [done|].
  intros H. vm_compute in H. discriminate H.
Qed.

Lemma flatten_each_or_raises (nfts : list json) :
  (∃ frs, Forall2 (λ nft fr, flatten_metadata nft = Ok fr) nfts frs) ∨
  (∃ l1 x l2 e, nfts = l1 ++ x :: l2 ∧
     Forall (λ x, returns (flatten_metadata x)) l1 ∧ flatten_metadata x = Raise e).
Proof.
  induction nfts as [|x l IH]; [left; by exists []|].
  destruct (flatten_metadata x) as [fr|e] eqn:E; [|right; by exists [], x, l, e].
  destruct IH as [[frs Hfrs]|(l1 & y & l2 & e & -> & Hl1 & Hy)].
  - left. exists (fr :: frs). by constructor.
  - right. exists (x :: l1), y, l2, e. split_and!; [done | | done].
    constructor; [by eexists | done].
Qed.

Lemma export_to_csv_cases (timestamp : pstr) (nfts : list json) (w : world) :
  (nfts = [] ∧
   export_to_csv timestamp nfts None w
   = (Ok None, World (files w) (warnings w ++ [u "No NFTs to export"]))) ∨
  (∃ e, export_to_csv timestamp nfts None w = (Raise e, w)) ∨
  (∃ frs, nfts ≠ [] ∧ Forall2 (λ nft fr, flatten_metadata nft = Ok fr) nfts frs ∧
     export_to_csv timestamp nfts None w
     = (Ok (Some (u "nft_metadata_" ++ timestamp ++ u ".csv")),
        World (<[u "nft_metadata_" ++ timestamp ++ u ".csv" :=
                 csv_text (sorted (⋃ (dom <$> frs))) frs]> (files w)) (warnings w))).
Proof.
  destruct nfts as [|nft nfts]; [by left|]. right.
  destruct (flatten_each_or_raises (nft :: nfts))
    as [[frs Hfrs]|(l1 & x & l2 & e & Heq & Hl1 & Hx)].
  - right. exists frs. split_and!; [done | done |].
    by rewrite (export_to_csv_written timestamp (nft :: nfts) None w frs).
  - left. exists e. rewrite Heq. unfold export_to_csv.
    rewrite (flatten_all_raises l1 x l2 [] ∅ e Hl1 Hx). by destruct l1.
Qed.

Lemma report_spec v filtered a :
  sent (report v filtered a).2 = sent a ∧
  (disk (report v filtered a).2 = disk a ∨
   (report v filtered a).1 = Ok () ∧
   ∃ text,
     disk (report v filtered a).2
     = <[u "nft_metadata_" ++ clock v ++ u ".csv" := text]> (disk a) ∧
     last (screen (report v filtered a).2)
     = Some (StDownloadButton (u "Download CSV")
               (u "nft_metadata_" ++ clock v ++ u ".csv")
               (u "nft_metadata_" ++ clock v ++ u ".csv") (u "text/csv"))).
Proof.
  unfold report. destruct filtered as [|nft rest]; [cbn [truthy negb]; by auto|].
  change (truthy (JList (nft :: rest))) with true. cbn [negb].
  rewrite show_bind_run, prog_bind_run. unfold run_export. cbn [disk sent screen].
  destruct (export_to_csv_cases (clock v) (nft :: rest) (World (disk a) []))
    as [[? _]|[[e ->]|(frs & _ & _ & ->)]]; [done | by auto |].
  cbn [files warnings fmap list_fmap].
  rewrite default_name_truthy, !show_bind_run. unfold st_show. cbn [fst snd sent screen disk].
  split; [done|]. right. split; [done|]. eexists. split; [done|].
  by rewrite !last_snoc.
Qed.


(** *** The two scripts *)

Lemma credentials_missing (k w : pstr) :
  negb (truthy (JStr k)) || negb (truthy (JStr w)) = true ↔ k = [] ∨ w = [].
Proof.
  cbn [truthy]. rewrite !negb_involutive, orb_true_iff, !bool_decide_eq_true. done.
Qed.

Lemma credentials_given (k w : pstr) :
  k ≠ [] → w ≠ [] → negb (truthy (JStr k)) || negb (truthy (JStr w)) = false.
Proof.
  intros Hk Hw. destruct (_ || _) eqn:E; [|done].
  apply credentials_missing in E as [?|?]; done.
Qed.

Lemma rpc_main_run v a :
  RpcApp.main v a =
  let a0 := System (sent a) (screen a ++ page_head) (disk a) in
  if fetch_pressed v
  then
    if negb (truthy (JStr (api_key_text v))) || negb (truthy (JStr (wallet_address_text v)))
    then st_show (StError (u "Please provide both API Key and Wallet Address.")) a0
    else
      (asset_ids ← RpcApp.get_assets_by_owner
                     (RpcApp.__init__ (api_key_text v) (wallet_address_text v));
       if negb (truthy (JList asset_ids))
       then st_show (StWarning (u "No assets found or an error occurred."))
       else
         all_nfts ← RpcApp.fetch_assets
                      (RpcApp.__init__ (api_key_text v) (wallet_address_text v)) asset_ids [];
         _ ← st_show (StSuccess (u "Fetched " ++ str_int (Z.of_nat (length all_nfts))
                                 ++ u " assets. Filtering by year 1990-2025..."));
         filtered_nfts ← lift (Rpc.filter_nfts_by_year all_nfts);
         report v filtered_nfts) a0
  else (Ok (), a0).
Proof.
  unfold RpcApp.main. rewrite !show_bind_run. cbn [sent screen disk].
  rewrite <- !app_assoc. destruct (fetch_pressed v); [destruct (_ || _)|]; reflexivity.
Qed.

Lemma rest_main_run v a :
  RestApp.main v a =
  let a0 := System (sent a) (screen a ++ page_head) (disk a) in
  if fetch_pressed v
  then
    if negb (truthy (JStr (api_key_text v))) || negb (truthy (JStr (wallet_address_text v)))
    then st_show (StError (u "Please provide both API Key and Wallet Address.")) a0
    else
      (nfts ← RestApp.get_nft_assets
                (RestApp.__init__ (api_key_text v) (wallet_address_text v));
       if negb (truthy nfts)
       then st_show (StWarning (u "No NFTs found or an error occurred."))
       else
         count ← lift (py_len nfts);
         _ ← st_show (StSuccess (u "Found " ++ str_int (Z.of_nat count)
                                 ++ u " NFTs. Filtering by year 1990-2025..."));
         items ← lift (py_iter nfts);
         filtered_nfts ← lift (Rest.filter_nfts_by_year items);
         report v filtered_nfts) a0
  else (Ok (), a0).
Proof.
  unfold RestApp.main. rewrite !show_bind_run. cbn [sent screen disk].
  rewrite <- !app_assoc. destruct (fetch_pressed v); [destruct (_ || _)|]; reflexivity.
Qed.

(** (X22) Unless the button has been pressed and both inputs are filled, a run
    of either script sends no request and writes no file: it shows the
    head of the page and, when the button has been pressed, the one error
    that asks for the two inputs. *)
Theorem main_needs_credentials (v : visit) (a : system) :
  fetch_pressed v = false ∨ api_key_text v = [] ∨ wallet_address_text v = [] →
  RpcApp.main v a = RestApp.main v a ∧
  RestApp.main v a =
  (Ok (),
   System (sent a)
     (screen a ++ page_head ++
      (if fetch_pressed v
       then [StError (u "Please provide both API Key and Wallet Address.")]
       else []))
     (disk a)).
Proof.
  intros H. rewrite rpc_main_run, rest_main_run. cbv zeta.
  destruct (fetch_pressed v); [|by rewrite app_nil_r].
  destruct H as [?|H]; [done|]. apply credentials_missing in H as ->.
  unfold st_show. cbn [sent screen disk]. by rewrite <- app_assoc.
Qed.

(** (X23) When the request for the list fails, the run of either script shows
    the error of the request and then its warning, sends no other request
    and writes no file. *)
Theorem main_listing_failure (v : visit) (a : system) (e : pstr) :
  fetch_pressed v = true → api_key_text v ≠ [] → wallet_address_text v ≠ [] →
  (let r := RpcApp.assets_by_owner_request
              (RpcApp.__init__ (api_key_text v) (wallet_address_text v)) in
   respond (sent a ++ [r]) = RequestException e →
   RpcApp.main v a =
   (Ok (),
    System (sent a ++ [r])
      (screen a ++ page_head ++
       [StError (u "Error fetching asset IDs: " ++ e);
        StWarning (u "No assets found or an error occurred.")])
      (disk a))) ∧
  (let r := RestApp.nft_assets_request
              (RestApp.__init__ (api_key_text v) (wallet_address_text v)) in
   respond (sent a ++ [r]) = RequestException e →
   RestApp.main v a =
   (Ok (),
    System (sent a ++ [r])
      (screen a ++ page_head ++
       [StError (u "Error fetching NFTs: " ++ e);
        StWarning (u "No NFTs found or an error occurred.")])
      (disk a))).
Proof.
  intros Hp Hk Hw. split; intros r Hr.
  - rewrite rpc_main_run, Hp, credentials_given by done. cbv zeta.
    rewrite prog_bind_run, get_assets_by_owner_run. cbn [sent screen disk].
    fold r. rewrite Hr. cbn [truthy negb]. unfold st_show. cbn [sent screen disk].
    by rewrite <- !app_assoc.
  - rewrite rest_main_run, Hp, credentials_given by done. cbv zeta.
    rewrite prog_bind_run, get_nft_assets_run. cbn [sent screen disk].
    fold r. rewrite Hr. cbn [truthy negb]. unfold st_show. cbn [sent screen disk].
    by rewrite <- !app_assoc.
Qed.


(** *** The requests of a run *)

Lemma report_sent v filtered a : sent (report v filtered a).2 = sent a.
Proof. by destruct (report_spec v filtered a). Qed.

(** (X25) A run of main.py that goes through has sent the request for the list
    and then one [getAsset] request for each id of the list, in the order
    of the list, and no other request.  A run of nft_extractor.py sends
    its one request, for the first page of at most 1000 NFTs, or none. *)
Theorem main_requests (v : visit) (a : system) :
  (let self := RpcApp.__init__ (api_key_text v) (wallet_address_text v) in
   fetch_pressed v = true → api_key_text v ≠ [] → wallet_address_text v ≠ [] →
   (RpcApp.main v a).1 = Ok () →
   ∃ asset_ids,
     (RpcApp.get_assets_by_owner self a).1 = Ok asset_ids ∧
     sent (RpcApp.main v a).2
     = sent a ++ RpcApp.assets_by_owner_request self
                 :: (RpcApp.asset_by_id_request self <$> asset_ids)) ∧
  (let self := RestApp.__init__ (api_key_text v) (wallet_address_text v) in
   sent (RestApp.main v a).2 = sent a ∨
   sent (RestApp.main v a).2 = sent a ++ [RestApp.nft_assets_request self]).
Proof.
  split; intros self.
  - intros Hp Hk Hw. rewrite rpc_main_run, Hp, credentials_given by done. cbv zeta.
    rewrite prog_bind_run, !get_assets_by_owner_run. cbn [sent screen disk]. fold self.
    destruct (respond _) as [e|data]; cbn [fst snd].
    { intros _. exists []. split; [done|]. cbn [truthy negb]. done. }
    destruct (_ ≫= _) as [ids|e]; [|done].
    intros Hok. exists ids. split; [done|]. revert Hok.
    destruct (negb (truthy (JList ids))) eqn:Hids.
    { destruct ids; [done | discriminate Hids]. }
    rewrite prog_bind_run.
    match goal with |- context [RpcApp.fetch_assets self ids [] ?s] => set (a1 := s) end.
    destruct (fetch_assets_spec self ids [] a1) as (_ & _ & Hall).
    destruct (RpcApp.fetch_assets self ids [] a1) as [[all_nfts|e] a2]; [|done].
    destruct (Hall all_nfts eq_refl) as [Hsent _]. cbn [fst snd] in Hsent.
    rewrite show_bind_run, lift_bind_run.
    destruct (Rpc.filter_nfts_by_year all_nfts) as [filtered|e]; [|done].
    intros _. rewrite report_sent. cbn [sent]. rewrite Hsent. unfold a1. cbn [sent].
    by rewrite <- app_assoc.
  - rewrite rest_main_run. cbv zeta.
    destruct (fetch_pressed v); [|by left].
    destruct (_ || _); [by left|]. right.
    rewrite prog_bind_run, get_nft_assets_run. cbn [sent screen disk]. fold self.
    assert (∀ nfts a1,
      sent ((if negb (truthy nfts)
             then st_show (StWarning (u "No NFTs found or an error occurred."))
             else
               count ← lift (py_len nfts);
               _ ← st_show (StSuccess (u "Found " ++ str_int (Z.of_nat count)
                                       ++ u " NFTs. Filtering by year 1990-2025..."));
               items ← lift (py_iter nfts);
               filtered_nfts ← lift (Rest.filter_nfts_by_year items);
               report v filtered_nfts) a1).2 = sent a1) as Hnfts.
    { intros nfts a1. destruct (negb (truthy nfts)); [done|].
      rewrite lift_bind_run. destruct (py_len nfts) as [count|e]; [|done].
      rewrite show_bind_run, lift_bind_run. destruct (py_iter nfts) as [items|e]; [|done].
      rewrite lift_bind_run.
      destruct (Rest.filter_nfts_by_year items) as [filtered|e]; [|done].
      by rewrite report_sent. }
    destruct (respond _) as [e|data]; by rewrite Hnfts.
Qed.

(** *** nft_extractor.py and the shape of the reply *)

Lemma rest_filter_raises_head (x : json) (rest : list json) :
  ¬ name_shaped x →
  ∃ e, Rest.filter_nfts_by_year (x :: rest) = Raise e ∧ (e = AttributeError ∨ e = TypeError).
Proof.
  intros Hx. cbn [Rest.filter_nfts_by_year].
  destruct (Rest.display_name x) as [n|e] eqn:E.
  - destruct Hx. by eapply rest_display_name_returns.
  - exists e. split; [done|]. by eapply rest_display_name_raises.
Qed.

(** (X26) nft_extractor.py takes the body of the reply for a list of records.
    When the body is something else that is not empty (a number, [true],
    a text or an object, such as an error message of the service), the
    run raises [TypeError] or [AttributeError], having sent its one
    request, and writes no file. *)
Theorem rest_main_reply_shape (v : visit) (a : system) (data : json) :
  let self := RestApp.__init__ (api_key_text v) (wallet_address_text v) in
  fetch_pressed v = true → api_key_text v ≠ [] → wallet_address_text v ≠ [] →
  respond (sent a ++ [RestApp.nft_assets_request self]) = Decoded data →
  truthy data = true → (∀ l, data ≠ JList l) →
  ∃ e, (RestApp.main v a).1 = Raise e ∧ (e = TypeError ∨ e = AttributeError) ∧
       sent (RestApp.main v a).2 = sent a ++ [RestApp.nft_assets_request self] ∧
       disk (RestApp.main v a).2 = disk a.
Proof.
  intros self Hp Hk Hw Hr Ht Hl.
  rewrite rest_main_run, Hp, credentials_given by done. cbv zeta.
  rewrite prog_bind_run, get_nft_assets_run. cbn [sent screen disk]. fold self.
  rewrite Hr, Ht. cbn [negb]. rewrite lift_bind_run.
  destruct data as [|b|z|f|s|l|d]; cbn [py_len]; try (exists TypeError; by auto).
  - rewrite show_bind_run, lift_bind_run. cbn [py_iter].
    destruct s as [|c s]; [done|]. cbn [List.map]. rewrite lift_bind_run.
    destruct (rest_filter_raises_head (JStr [c]) (List.map (λ c, JStr [c]) s))
      as (e & -> & He); [by intros []|].
    exists e. split_and!; [done | tauto | done | done].
  - by destruct (Hl l).
  - rewrite show_bind_run, lift_bind_run. cbn [py_iter].
    destruct d as [|[k x] d]; [done|]. cbn [List.map fst]. rewrite lift_bind_run.
    destruct (rest_filter_raises_head (JStr k) (List.map (λ kv, JStr kv.1) d))
      as (e & -> & He); [by intros []|].
    exists e. split_and!; [done | tauto | done | done].
Qed.


End ScriptFacts.

(** ** The theorems at sample records *)

#[local] Existing Instance ascii_runtime.



(** (C1, as stated) A nested field that holds a non-mapping value makes
    [flatten_metadata] raise. *)
Lemma flatten_metadata_raises :
  flatten_metadata ownership_text = Raise AttributeError ∧
  flatten_metadata content_null = Raise AttributeError ∧
  flatten_metadata grouping_texts = Raise AttributeError.
Proof. by vm_compute. Qed.

(** (C1) Scenario 1 is well shaped: it flattens, and the ten columns are
    there. *)
Lemma flatten_metadata_unconditional_witness :
  flat_shaped scenario1 ∧
  ∃ fl, flatten_metadata scenario1 = Ok fl ∧
        ∀ col path dflt, (col, (path, dflt)) ∈ unconditional →
          fl !! col = Some (default dflt (lookup_path path scenario1)).
Proof.
  split; [by vm_compute|].
  apply (flatten_metadata_unconditional scenario1). by vm_compute.
Defined.

(** (C2, as stated) The entry at index 2 has no [trait_type]: the row has
    no column [attribute_2]; the entry's value is under
    [trait_attribute_2]. *)
Lemma attribute_column_counterexample :
  column (u "attribute_2") (JDict scenario4_fields) = Ok None ∧
  column (u "trait_attribute_2") (JDict scenario4_fields) = Ok (Some (JStr (u "Blue"))).
Proof. by vm_compute. Qed.

(** (C2) Scenario 4: the third entry writes [trait_attribute_2]. *)
Lemma attribute_without_trait_type_witness :
  ∃ fl, flatten_metadata (JDict scenario4_fields) = Ok fl ∧
        fl !! attribute_name 2 = None ∧
        is_Some (fl !! (u "trait_" ++ attribute_name 2)) ∧
        fl !! (u "trait_" ++ attribute_name 2) = Some (JStr (u "Blue")).
Proof.
  destruct (flat_shaped_returns (JDict scenario4_fields)) as [fl E]; [by vm_compute|].
  exists fl. split; [done|].
  destruct (attribute_without_trait_type scenario4_fields scenario4_content
              scenario4_metadata [rarity; hat] [] untyped fl E)
    as (Hnone & Hsome & Hvalue); [by vm_compute..|].
  split_and!; [exact Hnone | exact Hsome |].
  apply Hvalue. by intros [|?] ?.
Defined.

(** (C7, as stated) The keys [Tag!] and [Tag] share the column
    [metadata_Tag], which holds the text of the later value, 2, and not
    the text of the value of [Tag!], 1. *)
Lemma residual_collision_counterexample :
  sanitize (u "Tag!") = u "Tag" ∧
  py_str (JInt 1) = u "1" ∧
  column (u "metadata_Tag") colliding = Ok (Some (JStr (u "2"))) ∧
  column (u "metadata_" ++ sanitize (u "Tag!")) colliding
  ≠ Ok (Some (JStr (py_str (JInt 1)))).
Proof. by vm_compute. Qed.

(** (C7) Scenario 5: the column [metadata_Custom_Tag] holds the JSON text
    of the value. *)
Lemma residual_metadata_column_witness :
  ∃ fl, flatten_metadata (JDict scenario5_fields) = Ok fl ∧
        fl !! u "metadata_Custom_Tag" = Some (JStr scenario5_text).
Proof.
  destruct (flat_shaped_returns (JDict scenario5_fields)) as [fl E]; [by vm_compute|].
  exists fl. split; [done|].
  destruct (residual_metadata_column scenario5_fields scenario5_content [] []
              (u "Custom Tag!") (JDict [(u "a", JInt 1)]) fl E)
    as [_ Hvalue]; [by vm_compute | by vm_compute | by apply (bool_decide_unpack _) |].
  apply Hvalue. intros k' v' Hin. by apply elem_of_nil in Hin.
Defined.




(** ** The further properties at sample records *)

(** (X7) Three records without a title: the two files keep the same ones. *)
Lemma filter_nfts_by_year_variants_witness :
  Forall (λ nft, title_idle nft = true) [named "1999wow"; scenario1; named "2026 party"] ∧
  ∀ out,
    Rpc.filter_nfts_by_year [named "1999wow"; scenario1; named "2026 party"] = Ok out ↔
    Rest.filter_nfts_by_year [named "1999wow"; scenario1; named "2026 party"] = Ok out.
Proof.
  assert (Forall (λ nft, title_idle nft = true)
            [named "1999wow"; scenario1; named "2026 party"]) as H
    by (repeat (constructor; [by vm_compute|]); constructor).
  split; [exact H|].
  exact (filter_nfts_by_year_variants [named "1999wow"; scenario1; named "2026 party"] H).
Defined.

(** (X8) A record with a royalty percentage and no edition nonce. *)
Lemma flatten_royalty_supply_witness :
  ∃ fl, flatten_metadata royal = Ok fl ∧
        fl !! u "royalty_percent" = Some (JInt 5) ∧
        fl !! u "royalty_locked" = Some (JBool false) ∧
        fl !! u "supply_edition_nonce" = Some (JStr []).
Proof.
  destruct (flat_shaped_returns royal) as [fl E]; [by vm_compute|].
  exists fl. split; [done|]. split_and!.
  - apply (flatten_royalty_supply royal fl E (u "royalty_percent")
             [u "royalty"; u "percent"] (JInt 0)). by repeat constructor.
  - apply (flatten_royalty_supply royal fl E (u "royalty_locked")
             [u "royalty"; u "locked"] (JBool false)). by repeat constructor.
  - apply (flatten_royalty_supply royal fl E (u "supply_edition_nonce")
             [u "supply"; u "edition_nonce"] (JStr [])). by repeat constructor.
Defined.

(** (X9) The columns of scenario 1. *)
Lemma flatten_metadata_columns_witness :
  ∃ fl, flatten_metadata scenario1 = Ok fl ∧
        ∀ k v, fl !! k = Some v →
          k ∈ fixed_columns ∨ k = u "collection_address" ∨
          (∃ x, k = u "trait_" ++ x) ∨ (∃ x s, k = u "metadata_" ++ x ∧ v = JStr s).
Proof.
  destruct (flat_shaped_returns scenario1) as [fl E]; [by vm_compute|].
  exists fl. split; [done|]. intros k v. exact (flatten_metadata_columns scenario1 fl k v E).
Defined.

(** (X10) Scenario 4 has the column [trait_Hat], for its second attribute. *)
Lemma trait_column_exists_witness :
  ∃ fl, flatten_metadata (JDict scenario4_fields) = Ok fl ∧
        is_Some (fl !! (u "trait_" ++ u "Hat")).
Proof.
  destruct (flat_shaped_returns (JDict scenario4_fields)) as [fl E]; [by vm_compute|].
  exists fl. split; [done|].
  apply (trait_column_exists (JDict scenario4_fields) fl (u "Hat") E).
  exists [rarity; hat; JDict untyped], 1, hat. by vm_compute.
Defined.

(** (X11) Its value is that of the attribute, [Cap]. *)
Lemma attribute_column_value_witness :
  ∃ fl, flatten_metadata (JDict scenario4_fields) = Ok fl ∧
        fl !! u "trait_Hat" = Some (JStr (u "Cap")).
Proof.
  destruct (flat_shaped_returns (JDict scenario4_fields)) as [fl E]; [by vm_compute|].
  exists fl. split; [done|].
  apply (attribute_column_value (JDict scenario4_fields) fl [rarity; hat; JDict untyped] 1
           [(u "trait_type", JStr (u "Hat")); (u "value", JStr (u "Cap"))] E);
    [done | done |].
  intros [|[|[|j]]] a Hlt Hj; try lia; [|done].
  injection Hj as <-. by vm_compute.
Defined.

(** (X12) Scenario 5 has the column [metadata_Custom_Tag], for its key
    [Custom Tag!]. *)
Lemma metadata_column_exists_witness :
  ∃ fl, flatten_metadata (JDict scenario5_fields) = Ok fl ∧
        is_Some (fl !! (u "metadata_" ++ u "Custom_Tag")).
Proof.
  destruct (flat_shaped_returns (JDict scenario5_fields)) as [fl E]; [by vm_compute|].
  exists fl. split; [done|].
  apply (metadata_column_exists (JDict scenario5_fields) fl (u "Custom_Tag") E).
  exists [(u "Custom Tag!", JDict [(u "a", JInt 1)])], (u "Custom Tag!"),
    (JDict [(u "a", JInt 1)]).
  split_and!; [done | by constructor | by apply (bool_decide_unpack _) | by vm_compute].
Defined.

(** (X13) Of two collection entries the first gives the address. *)
Lemma collection_address_first_witness :
  ∃ fl, flatten_metadata (JDict grouped_fields) = Ok fl ∧
        fl !! u "collection_address" = Some (JStr (u "col1")).
Proof.
  destruct (flat_shaped_returns (JDict grouped_fields)) as [fl E];
    [vm_compute; split_and!; try done; by repeat constructor|].
  exists fl. split; [done|].
  by apply (collection_address_first grouped_fields fl
              [creator_group; collection_group; second_collection_group] E).
Defined.

(** (X14) A text after the collection entry flattens like a second collection
    entry after it: neither is looked at. *)
Lemma grouping_stops_at_collection_witness :
  flatten_metadata (JDict grouped_junk_fields) = flatten_metadata (JDict grouped_fields).
Proof.
  apply (grouping_stops_at_collection grouped_junk_fields grouped_fields
           [creator_group] collection_group [JStr (u "junk")] [second_collection_group]);
    [|done..].
  intros k Hk.
  repeat (apply elem_of_cons in Hk as [->|Hk]; [reflexivity|]).
  by apply elem_of_nil in Hk.
Defined.

(** (X15) The key [interface] changes nothing. *)
Lemma flatten_metadata_reads_witness :
  flatten_metadata (JDict scenario4_interface_fields)
  = flatten_metadata (JDict scenario4_fields).
Proof.
  apply (flatten_metadata_reads scenario4_interface_fields scenario4_fields).
  intros k Hk. unfold read_keys in Hk.
  repeat (apply elem_of_cons in Hk as [->|Hk]; [reflexivity|]).
  by apply elem_of_nil in Hk.
Defined.

(** (X16) A [grouping] that is [null] raises [TypeError]. *)
Lemma flatten_metadata_exceptions_witness :
  flatten_metadata grouping_null = Raise TypeError ∧
  (TypeError = AttributeError ∨
   TypeError = TypeError ∧
   ∃ d g, grouping_null = JDict d ∧ dict_get (u "grouping") d = Some g ∧
          match g with
          | JNone | JBool _ | JInt _ | JFloat _ => True
          | _ => False
          end).
Proof.
  assert (flatten_metadata grouping_null = Raise TypeError) as H by (by vm_compute).
  split; [exact H|]. exact (flatten_metadata_exceptions grouping_null TypeError H).
Defined.

(** (X17) Scenario 1 is kept for the name of its metadata, which is its column
    [name]. *)
Lemma kept_name_column_witness :
  Rpc.filter_nfts_by_year [scenario1; named "2026 party"] = Ok [scenario1] ∧
  year_pattern_match (py_str (JStr (u "1999 Relic") : sample_json)) = true ∧
  year_in_range (py_str (JStr (u "1999 Relic") : sample_json)).
Proof.
  assert (Rpc.filter_nfts_by_year [scenario1; named "2026 party"] = Ok [scenario1]) as H
    by (by vm_compute).
  split; [exact H|].
  destruct (flat_shaped_returns scenario1) as [fl E]; [by vm_compute|].
  apply (kept_name_column [scenario1; named "2026 party"] [scenario1] scenario1 fl
           (JStr (u "1999 Relic")));
    [by left | by left | done | | done].
  apply (flatten_unconditional scenario1 fl E (u "name")
           [u "content"; u "metadata"; u "name"] (JStr [])).
  by repeat constructor.
Defined.

(** (X18) The second of three records does not flatten: nothing is written. *)
Lemma export_to_csv_aborts_witness :
  export_to_csv sample_timestamp [scenario1; content_null; null_id] None no_files
  = (Raise AttributeError, no_files).
Proof.
  apply (export_to_csv_aborts sample_timestamp [scenario1] content_null [null_id] None
           no_files AttributeError); [|by vm_compute].
  constructor; [|constructor]. apply flat_shaped_returns. by vm_compute.
Defined.


(** (X20) A list of two items: their two ids. *)
Lemma get_assets_by_owner_ids_witness :
  (RpcApp.get_assets_by_owner (net := scripted [Decoded listing]) rpc_self idle).1
  = Ok [JStr (u "m1"); JStr (u "m4")].
Proof.
  destruct (get_assets_by_owner_ids (net := scripted [Decoded listing]) rpc_self idle
              listing listing_items) as [_ H]; [done | done |].
  apply H. repeat (constructor; [by eexists|]). constructor.
Defined.

(** (X21) The first of two requests fails and the second gives scenario 1: the
    loop returns the one asset. *)
Lemma fetch_assets_skips_failures_witness :
  ∃ nfts a',
    RpcApp.fetch_assets
      (net := scripted [RequestException (u "timeout");
                        Decoded (JDict [(u "result", scenario1)])])
      rpc_self [JStr (u "m0"); JStr (u "m1")] [] idle = (Ok nfts, a') ∧
    sent a' = sent idle ++ (RpcApp.asset_by_id_request rpc_self
                              <$> [JStr (u "m0"); JStr (u "m1")]) ∧
    disk a' = disk idle ∧
    ∃ kept, nfts = [] ++ kept ∧ Forall (λ x, truthy x = true) kept ∧ length kept ≤ 2.
Proof.
  apply (fetch_assets_skips_failures
           (net := scripted [RequestException (u "timeout");
                             Decoded (JDict [(u "result", scenario1)])])).
  intros history. unfold respond, scripted.
  by destruct (length history - 1) as [|[|n]].
Defined.

(** (X22) The button pressed with both inputs empty. *)
Lemma main_needs_credentials_witness :
  RpcApp.main (net := scripted []) blank idle = RestApp.main (net := scripted []) blank idle ∧
  RestApp.main (net := scripted []) blank idle =
  (Ok (),
   System [] (page_head ++ [StError (u "Please provide both API Key and Wallet Address.")]) ∅).
Proof.
  apply (main_needs_credentials (net := scripted []) blank idle). by right; left.
Defined.

(** (X23) The request for the list times out. *)
Lemma main_listing_failure_witness :
  RpcApp.main (net := scripted []) filled idle =
  (Ok (),
   System [RpcApp.assets_by_owner_request (RpcApp.__init__ (u "key") (u "wallet"))]
     (page_head ++
      [StError (u "Error fetching asset IDs: " ++ u "timeout");
       StWarning (u "No assets found or an error occurred.")]) ∅) ∧
  RestApp.main (net := scripted []) filled idle =
  (Ok (),
   System [RestApp.nft_assets_request (RestApp.__init__ (u "key") (u "wallet"))]
     (page_head ++
      [StError (u "Error fetching NFTs: " ++ u "timeout");
       StWarning (u "No NFTs found or an error occurred.")]) ∅).
Proof.
  destruct (main_listing_failure (net := scripted []) filled idle (u "timeout"))
    as [H1 H2]; [done..|].
  split; [by apply H1 | by apply H2].
Defined.

(** (X26) The service answers with an error message, an object: the run
    raises. *)
Lemma rest_main_reply_shape_witness :
  ∃ e, (RestApp.main (net := scripted [Decoded unauthorized]) filled idle).1 = Raise e ∧
       (e = TypeError ∨ e = AttributeError) ∧
       sent (RestApp.main (net := scripted [Decoded unauthorized]) filled idle).2
       = [] ++ [RestApp.nft_assets_request (RestApp.__init__ (u "key") (u "wallet"))] ∧
       disk (RestApp.main (net := scripted [Decoded unauthorized]) filled idle).2 = ∅.
Proof.
  by apply (rest_main_reply_shape (net := scripted [Decoded unauthorized]) filled idle
              unauthorized).
Defined.

